(* ===== verification/_CoqProject ===== *)
-Q . S2P
Prelude.v
JsString.v
JsObject.v
ArraySort.v
SubjectCatalog.v
SubjectPage.v
Timetable.v
Handlers.v
ReportPages.v
OldSubjectPage.v
TeacherSubEdit.v
