(* ===== verification/Prelude.v ===== *)
(** * A verification library for the school-management admin front end

    The repository (src/) is a React admin panel.  Almost all of it is
    network and rendering glue; the logic with invariants lives in a few
    event handlers and memoised derivations:

    - src/src/pages/subject/SubjectList.jsx: the subject catalogue.
      [groupedSubjects] groups the fetched rows by class with
      [Array.prototype.reduce] into a plain JS object, [sortedClassNames]
      sorts the object's keys with a comparator built from the static
      [classOrder] and [localeCompare], [filteredSubjects] filters the
      rows by search text, status and class, [classStats]/[totalStats]
      count rows per class and overall, [toggleStatus] flips one row's
      status after a PUT, the filter button cycles [filterActive]
      through null/true/false, [handleSubmit] creates a subject.
    - src/test4.jsx: an older copy of that page with the same
      derivations, its handlers written as [axios(...).then] chains, a
      statistics panel, and a [fetchClasses] that nothing calls.
    - src/src/pages/timetable/Timetable.jsx: the class timetable.
      [fetchTimetable] loads classes, periods and assignments for the
      selected year and picks a default class;
      [getSubjectForClassDayPeriod] resolves one cell by a first-match
      [Array.prototype.find]; the render builds the weekday x period
      grid for the active class, or the loader / error view.
    - src/src/pages/teacher/teacherList/TeacherSubEdit.jsx: the dialog
      that edits one teacher-subject assignment.
    - HolidayList.jsx [handleDelete], TeacherAttendanceList.jsx
      [handleSubmit]/[handleDelete], PendingFeesReportView.jsx
      [handlePendingFees], TeacherReport.jsx [handleTeacher],
      StudentList.jsx's status button: handlers whose effect depends on
      the outcome of one request.

    The components interact only through React page state: the fetch
    handlers store flat lists, the derivations recompute views from them
    on every render, the event handlers replace state.  Each page state
    is a Record; each handler is a function from a state and the outcome
    of its request ([outcome]: resolved body or rejection) to the next
    state, split at every [await] or [.then] so that other events may
    come in between; each derivation is a Rocq function; JavaScript
    exceptions are values of [js_result].  Where a claim is about a run
    of events, the events form an Inductive and a step function, and the
    invariant is proved by induction on the run.

    ** Files, and what their theorems show

    - [Prelude] (this file): the [js_result] error monad with its
      notation in [js_scope], the development's tactics, the hint
      databases [jsdb] and [jsrw], list lemmas shared by the components.
    - [JsString]: [toLowerCase] (ASCII), [includes], [indexOf] on string
      arrays, and the [Collator] class that [localeCompare] is used
      through, with an ASCII instance proved a total order.
    - [JsObject]: plain JS objects used as dictionaries: own properties
      in creation order, reads with the [Object.prototype] fallback,
      writes, and [Object.keys], which lists the array-index keys
      ("9", "10") first in ascending numeric order and the other keys in
      creation order (sorted with stdpp's [merge_sort]).
    - [ArraySort]: [Array.prototype.sort] as a stable insertion sort;
      sorted, a permutation, and equal to every other sorted permutation
      when the comparator is a strict total order, so the engine's
      algorithm is immaterial.
    - [SubjectCatalog]: the derivations of SubjectList.jsx 145-249
      (test4.jsx 177-264 is the same code).  Theorems: grouping refines
      the partition of the rows by class and throws on classes named
      like [Object.prototype] properties; the class order and its
      uniqueness; the filter's specification; the statistics'
      consistency and their divergence from the "Inactive" filter.
    - [SubjectPage]: the SubjectList.jsx state, handlers and render.
      Theorems: status toggling (round trip, unknown id, failures), the
      create flow always re-enables its button, the page renders exactly
      when grouping succeeds and [classes] is defined ([classes.map] runs
      on every render), the pills and cards shown.
    - [Timetable]: the resolver, the grid, the load state machine, and
      Module [Index], an index keyed by (class, day, period) proved to
      answer as the first-match scan.  Theorems: first match wins, grid
      shape, sticky error, default and stale class.
    - [Handlers]: Module [Holiday] (the list, its table and the delete
      confirmation) and Module [Attendance] (a step function over user
      events and request settlements, with a ghost count of requests in
      flight, and the list with its loader).  Theorems: deletion on every
      outcome, id 0 refused, the stuck button, the unreachable update
      dialog, the loader left after a failed fetch.
    - [ReportPages]: a small statement interpreter with a scope of
      declared names, for the handlers that call undeclared functions
      (ReferenceError) inside try/catch; Modules [PendingFees],
      [TeacherReport] and [StudentList] with each page's state, fetches
      and rendered table or form.  Theorem: the pending-fees table renders
      exactly when no row has a [null] amount.
    - [OldSubjectPage]: Module [OldSubjectList], test4.jsx's state,
      handlers, events and statistics panel.  Theorems: no reachable
      state lets a subject be created; silent status failures; the
      panel's bars are well defined.
    - [TeacherSubEdit]: Module [TeacherSubEdit], the form as a JS object
      with [undefined] values.  Theorems: a reopened dialog PUTs a stray
      [teacher_ref]; an absent period list breaks the render; the PUT's
      outcome always re-enables the button.

    ** Bounds and fuel

    No definition needs fuel: every loop of the code is a [map],
    [filter], [reduce], [find] or [sort] over a fetched list, modelled by
    structural recursion.  Counts are naturals bounded by the length of
    a fetched list, far below 2^53, so JavaScript's number arithmetic on
    them is exact.  Ids and response codes are integers ([Z]).

    ** What is not modelled

    Rendering details (CSS classes, print layout, MUI transitions, focus
    handling), routing, the HTTP layer ([UseApi] and axios: their
    responses are inputs of the handlers), authentication tokens, and
    toasts beyond the list of messages a handler emits.  Strings are
    byte strings: [toLowerCase] and [localeCompare] are modelled on ASCII.
    The table column definitions of the report, student and attendance
    pages are configuration without logic.  The weekday options of
    TeacherSubEdit come from components/common/data.json, which is not
    under src/: they are taken from the spec (Monday to Saturday).
    The child components these pages mount (CreateTeacherAttendance,
    Layout, the buttons of ButtonComponents) are not under src/ and are
    not modelled.  Left for later: the date formatting of moment, and a
    model of the JSX of test4.jsx beyond its statistics panel. *)

From Stdlib Require Export ZArith Ascii Sorted Permutation Lia.
From stdpp Require Export base list strings sets.

(** ** Errors raised by the modelled JavaScript *)

Inductive js_error :=
| TypeError (msg : string)
| ReferenceError (msg : string)
| Rejection (msg : string).   (* an awaited promise that rejects *)

Inductive js_result (A : Type) :=
| Ok (a : A)
| Throw (e : js_error).
Arguments Ok {A} a.
Arguments Throw {A} e.

Definition js_bind {A B} (r : js_result A) (k : A -> js_result B) : js_result B :=
  match r with
  | Ok a => k a
  | Throw e => Throw e
  end.

(** [js_result] is a monad in stdpp's sense, so stdpp's [x ← r; k]
    notation threads the exceptions. *)
#[export] Instance js_result_ret : MRet js_result := fun _ a => Ok a.
#[export] Instance js_result_bind : MBind js_result := fun _ _ k r => js_bind r k.

Declare Scope js_scope.
Delimit Scope js_scope with js.
(** [r ?? e]: the value of [r], or the error [e] when [r] is [None]. *)
Notation "r ?? e" := (match r with Some a => Ok a | None => Throw e end)
  (at level 50, no associativity) : js_scope.

(** [Array.prototype.reduce] with a callback that may throw. *)
Fixpoint js_reduce {A B} (f : B -> A -> js_result B) (l : list A) (acc : B)
  : js_result B :=
  match l with
  | [] => Ok acc
  | x :: l' => js_bind (f acc x) (js_reduce f l')
  end.

(** [Array.prototype.map] with a callback that may throw. *)
Fixpoint js_map {A B} (f : A -> js_result B) (l : list A) : js_result (list B) :=
  match l with
  | [] => Ok []
  | x :: l' => js_bind (f x) (fun y => js_bind (js_map f l') (fun ys => Ok (y :: ys)))
  end.

(** ** Tactics *)

Ltac invc H := inversion H; subst; clear H.

(** Case on the first boolean or [decide] test of the goal. *)
Ltac case_test :=
  match goal with
  | |- context [if decide ?P then _ else _] => destruct (decide P)
  | |- context [if ?b then _ else _] => destruct b eqn:?
  end.

Create HintDb jsdb discriminated.
Create Rewrite HintDb jsrw.

(** ** Shared list lemmas *)

Lemma length_filter_split {A} (f : A -> bool) (l : list A) :
  length l = length (List.filter f l) + length (List.filter (fun x => negb (f x)) l).
Proof. induction l as [|x l IH]; simpl; [done|]. destruct (f x); simpl; lia. Qed.

Lemma filter_split_perm {A} (f : A -> bool) (l : list A) :
  Permutation l (List.filter f l ++ List.filter (fun x => negb (f x)) l).
Proof.
  induction l as [|x l IH]; simpl; [done|].
  destruct (f x); simpl; [by constructor|]. rewrite <- Permutation_middle. by constructor.
Qed.

Lemma filter_perm {A} (f : A -> bool) (l1 l2 : list A) :
  Permutation l1 l2 -> Permutation (List.filter f l1) (List.filter f l2).
Proof.
  induction 1 as [|x l1 l2 _ IH|x y l|l1 l2 l3 _ IH1 _ IH2]; simpl.
  - done.
  - destruct (f x); [by constructor|done].
  - destruct (f x), (f y); try constructor; done.
  - by rewrite IH1.
Qed.

(** [List.filter] respects permutations, so [rewrite] can go under it. *)
#[export] Instance filter_Permutation_proper {A} (f : A -> bool) :
  Proper (Permutation ==> Permutation) (List.filter f).
Proof. intros l1 l2. apply filter_perm. Qed.

Lemma filter_sublist {A} (f : A -> bool) (l : list A) : sublist (List.filter f l) l.
Proof.
  induction l as [|x l IH]; simpl; [constructor|].
  destruct (f x); [by apply sublist_skip|by apply sublist_cons].
Qed.

Lemma filter_filter_and {A} (f g : A -> bool) (l : list A) :
  List.filter f (List.filter g l) = List.filter (fun x => f x && g x) l.
Proof.
  induction l as [|x l IH]; simpl; [done|].
  destruct (g x); simpl; rewrite ?andb_true_r, ?andb_false_r; [|done].
  destruct (f x); simpl; [by f_equal|done].
Qed.

Lemma js_reduce_app {A B} (f : B -> A -> js_result B) l1 l2 acc :
  js_reduce f (l1 ++ l2) acc = js_bind (js_reduce f l1 acc) (js_reduce f l2).
Proof.
  revert acc. induction l1 as [|x l1 IH]; intros acc; simpl; [done|].
  destruct (f acc x); simpl; auto.
Qed.

Lemma js_map_Ok {A B} (f : A -> js_result B) (g : A -> B) l :
  (forall x, x ∈ l -> f x = Ok (g x)) -> js_map f l = Ok (map g l).
Proof.
  induction l as [|x l IH]; intros Hf; simpl; [done|].
  rewrite Hf by (by left). simpl. rewrite IH; [done|]. intros y Hy. apply Hf. by right.
Qed.

(** [js_map] succeeds, with one result per element, when [f] does on
    every element. *)
Lemma js_map_total {A B} (f : A -> js_result B) l :
  (forall x, x ∈ l -> exists y, f x = Ok y) ->
  exists ys, js_map f l = Ok ys /\ length ys = length l.
Proof.
  induction l as [|x l IH]; intros Hf; simpl; [by exists []|].
  destruct (Hf x) as [y ->]; [by left|]. destruct IH as [ys [-> Hl]].
  { intros z Hz. apply Hf. by right. }
  exists (y :: ys). simpl. by rewrite Hl.
Qed.

(** [js_map] throws when [f] throws on some element. *)
Lemma js_map_throws {A B} (f : A -> js_result B) l x :
  x ∈ l -> (exists e, f x = Throw e) -> exists e, js_map f l = Throw e.
Proof.
  intros Hx [e He]. induction l as [|z l IH]; [by apply not_elem_of_nil in Hx|]. simpl.
  apply elem_of_cons in Hx as [->|Hx]; [rewrite He; by eexists|].
  destruct (f z) as [y|e']; simpl; [|by eexists].
  destruct (IH Hx) as [e'' ->]. by eexists.
Qed.

Lemma sum_list_perm (l1 l2 : list nat) : Permutation l1 l2 -> sum_list l1 = sum_list l2.
Proof. induction 1; simpl; lia. Qed.

Lemma sum_list_length_concat {A} (ls : list (list A)) :
  sum_list (map length ls) = length (concat ls).
Proof. induction ls as [|l ls IH]; simpl; [done|]. rewrite length_app. lia. Qed.

Lemma filter_concat {A} (f : A -> bool) (ls : list (list A)) :
  List.filter f (concat ls) = concat (map (List.filter f) ls).
Proof. induction ls as [|l ls IH]; simpl; [done|]. by rewrite List.filter_app, IH. Qed.

#[export] Hint Rewrite @js_reduce_app : jsrw.
