(* ===== verification/JsString.v ===== *)
(** * JavaScript string and array primitives used by the pages

    [toLowerCase], [includes], [Array.prototype.indexOf] on a list of
    strings, and [localeCompare] through the [Collator] interface: the
    sort comparator of SubjectList.jsx only needs [localeCompare] to be a
    strict total order, so its theorems are proved against the class and
    [ascii_collator] discharges it. *)

From S2P Require Import Prelude.

(** ** [String.prototype.toLowerCase] on ASCII *)

Definition ascii_toLower (c : ascii) : ascii :=
  let n := nat_of_ascii c in
  if (65 <=? n) && (n <=? 90) then ascii_of_nat (n + 32) else c.

Fixpoint toLowerCase (s : string) : string :=
  match s with
  | EmptyString => EmptyString
  | String c s' => String (ascii_toLower c) (toLowerCase s')
  end.

(** ** [String.prototype.includes] *)

(** [s.includes(t)]: [t] occurs in [s] at some position. *)
Fixpoint includes (s t : string) : bool :=
  String.prefix t s ||
  match s with
  | EmptyString => false
  | String _ s' => includes s' t
  end.

(** ** [Array.prototype.indexOf] on strings: first index, or -1 *)

Fixpoint first_index (l : list string) (x : string) : option nat :=
  match l with
  | [] => None
  | y :: l' => if String.eqb y x then Some 0 else S <$> first_index l' x
  end.

Definition indexOf (l : list string) (x : string) : Z :=
  match first_index l x with Some n => Z.of_nat n | None => (-1)%Z end.

(** ** [String.prototype.localeCompare] through a collator *)

Class Collator := {
  collate : string -> string -> comparison;
  collate_antisym a b : collate b a = CompOpp (collate a b);
  collate_eq a b : collate a b = Eq -> a = b;
  collate_trans a b c : collate a b = Lt -> collate b c = Lt -> collate a c = Lt
}.

(** [a.localeCompare(b)] as the number the comparator returns. *)
Definition localeCompare `{Collator} (a b : string) : Z :=
  match collate a b with Lt => (-1)%Z | Eq => 0%Z | Gt => 1%Z end.

(** ** Lemmas *)

Lemma prefix_app_iff (t s : string) :
  String.prefix t s = true <-> exists q, s = (t +:+ q)%string.
Proof.
  revert s. induction t as [|c t IH]; intros s; simpl.
  - destruct s; split; eauto.
  - destruct s as [|d s]; split.
    + done.
    + intros [q Hq]; done.
    + intros Hp; simpl in Hp. destruct (ascii_dec c d) as [->|]; [|congruence].
      apply IH in Hp as [q ->]. eauto.
    + intros [q Hq]. injection Hq as -> ->. simpl.
      destruct (ascii_dec c c); [|congruence]. apply IH. eauto.
Qed.

Lemma includes_iff (s t : string) :
  includes s t = true <-> exists p q, s = (p +:+ t +:+ q)%string.
Proof.
  induction s as [|c s IH]; cbn [includes]; rewrite orb_true_iff, prefix_app_iff.
  - split.
    + intros [[q Hq]|]; [|done]. exists EmptyString, q. done.
    + intros [[|? p] [q Hq]]; [left; eauto|done].
  - rewrite IH. split.
    + intros [[q Hq]|[p [q ->]]].
      * exists EmptyString, q. done.
      * exists (String c p), q. done.
    + intros [[|d p] [q Hq]]; [left; eauto|].
      injection Hq as -> ->. right. eauto.
Qed.

Lemma string_app_nil_r (s : string) : (s +:+ "")%string = s.
Proof. induction s as [|c s IH]; [reflexivity|]. exact (f_equal (String c) IH). Qed.

Lemma includes_empty (s : string) : includes s "" = true.
Proof.
  apply includes_iff. exists s, EmptyString.
  change (s = s +:+ "")%string. by rewrite string_app_nil_r.
Qed.

Lemma first_index_lookup l x n : first_index l x = Some n -> l !! n = Some x.
Proof.
  revert n. induction l as [|y l IH]; intros n; simpl; [done|].
  destruct (String.eqb_spec y x) as [->|]; [by intros [= <-]|].
  destruct (first_index l x) eqn:E; simpl; intros [= <-]; by apply IH.
Qed.

Lemma first_index_None l x : first_index l x = None <-> x ∉ l.
Proof.
  induction l as [|y l IH]; simpl.
  - split; [intros _; apply not_elem_of_nil|done].
  - rewrite not_elem_of_cons, <- IH.
    destruct (String.eqb_spec y x) as [->|]; [naive_solver|].
    destruct (first_index l x); simpl; naive_solver.
Qed.

Lemma indexOf_absent l x : x ∉ l -> indexOf l x = (-1)%Z.
Proof. unfold indexOf. by intros ->%first_index_None. Qed.

Lemma indexOf_present l x : x ∈ l -> exists n, indexOf l x = Z.of_nat n /\ l !! n = Some x.
Proof.
  unfold indexOf. intros Hx. destruct (first_index l x) as [n|] eqn:E.
  - exists n. auto using first_index_lookup.
  - by apply first_index_None in E.
Qed.

Lemma indexOf_cases l x :
  (x ∉ l /\ indexOf l x = (-1)%Z) \/
  (x ∈ l /\ exists n, indexOf l x = Z.of_nat n /\ l !! n = Some x).
Proof.
  destruct (decide (x ∈ l)) as [Hx|Hx].
  - right. split; [done|]. by apply indexOf_present.
  - left. split; [done|]. by apply indexOf_absent.
Qed.

(** Two strings with the same non-negative index are equal. *)
Lemma indexOf_inj l a b :
  a ∈ l -> b ∈ l -> indexOf l a = indexOf l b -> a = b.
Proof.
  intros (n & -> & Ha)%indexOf_present (m & -> & Hb)%indexOf_present Hnm.
  assert (n = m) as -> by lia. congruence.
Qed.

(** ** The ASCII collator

    [localeCompare] under the default locale compares letters case-
    insensitively first and breaks ties between strings that differ only
    in case; [ascii_collator] does that on ASCII: it compares the
    lower-cased strings, then the strings themselves. *)

Lemma string_compare_trans a b c :
  String.compare a b = Lt -> String.compare b c = Lt -> String.compare a c = Lt.
Proof.
  intros Hab Hbc.
  assert (String.le a c) as Hac.
  { transitivity b; unfold String.le, String.leb; by rewrite ?Hab, ?Hbc. }
  unfold String.le, String.leb in Hac.
  destruct (String.compare a c) eqn:E; [|done|done].
  apply String.compare_eq_iff in E as <-.
  rewrite String.compare_antisym, Hbc in Hab. done.
Qed.

Section Lexicographic.
Context {A K : Type} (key : A -> K) (kcmp : K -> K -> comparison)
  (cmp : A -> A -> comparison).
Hypothesis kcmp_antisym : forall x y, kcmp y x = CompOpp (kcmp x y).
Hypothesis kcmp_eq : forall x y, kcmp x y = Eq -> x = y.
Hypothesis kcmp_trans : forall x y z, kcmp x y = Lt -> kcmp y z = Lt -> kcmp x z = Lt.
Hypothesis cmp_trans : forall x y z, cmp x y = Lt -> cmp y z = Lt -> cmp x z = Lt.

Definition lex_compare (a b : A) : comparison :=
  match kcmp (key a) (key b) with Eq => cmp a b | c => c end.

Lemma kcmp_refl x : kcmp x x = Eq.
Proof. pose proof (kcmp_antisym x x). by destruct (kcmp x x). Qed.

Lemma lex_compare_trans a b c :
  lex_compare a b = Lt -> lex_compare b c = Lt -> lex_compare a c = Lt.
Proof.
  unfold lex_compare.
  destruct (kcmp (key a) (key b)) eqn:E1; try done;
    destruct (kcmp (key b) (key c)) eqn:E2; try done; intros Hab Hbc.
  - apply kcmp_eq in E1, E2. rewrite E1, E2, kcmp_refl. eauto.
  - apply kcmp_eq in E1. by rewrite E1, E2.
  - apply kcmp_eq in E2. by rewrite <- E2, E1.
  - by rewrite (kcmp_trans _ _ _ E1 E2).
Qed.
End Lexicographic.

Definition ascii_collate (a b : string) : comparison :=
  lex_compare toLowerCase String.compare String.compare a b.

#[export] Program Instance ascii_collator : Collator := {| collate := ascii_collate |}.
Next Obligation.
  intros a b. unfold ascii_collate, lex_compare.
  rewrite (String.compare_antisym (toLowerCase a)), (String.compare_antisym a).
  by destruct (String.compare (toLowerCase b) (toLowerCase a)), (String.compare b a).
Qed.
Next Obligation.
  intros a b. unfold ascii_collate, lex_compare.
  destruct (String.compare (toLowerCase a) (toLowerCase b)); try done.
  apply String.compare_eq_iff.
Qed.
Next Obligation.
  intros a b c. apply (lex_compare_trans toLowerCase String.compare String.compare
           (fun x y => String.compare_antisym y x) String.compare_eq_iff
           string_compare_trans string_compare_trans).
Qed.
