(* ===== verification/JsObject.v ===== *)
(** * Plain JavaScript objects used as dictionaries

    [{}] literals whose properties are read and written by computed keys,
    as [groupedSubjects] in SubjectList.jsx does.  Own properties are an
    association list in insertion order (the order [Object.keys] reports
    for non-integer keys); reading a missing key falls back to
    [Object.prototype], whose methods are truthy values that are not
    arrays.  [Object.keys] follows OrdinaryOwnPropertyKeys: the keys
    that are array indices ("0", "7", "10", ...) first, in ascending
    numeric order, then the other keys in creation order. *)

From stdpp Require Import sorting.
From S2P Require Import Prelude.

Definition js_object (V : Type) := list (string * V).

(** The properties every object literal inherits from [Object.prototype]. *)
Definition object_prototype_props : list string :=
  ["constructor"; "__defineGetter__"; "__defineSetter__"; "hasOwnProperty";
   "__lookupGetter__"; "__lookupSetter__"; "isPrototypeOf";
   "propertyIsEnumerable"; "toString"; "valueOf"; "__proto__";
   "toLocaleString"].

(** What [o[k]] evaluates to. *)
Inductive js_prop (V : Type) :=
| Own (v : V)
| Inherited (k : string)
| Undefined.
Arguments Own {V} v.
Arguments Inherited {V} k.
Arguments Undefined {V}.

Fixpoint get_own {V} (o : js_object V) (k : string) : option V :=
  match o with
  | [] => None
  | (k', v) :: o' => if String.eqb k' k then Some v else get_own o' k
  end.

Definition js_get {V} (o : js_object V) (k : string) : js_prop V :=
  match get_own o k with
  | Some v => Own v
  | None => if decide (k ∈ object_prototype_props) then Inherited k else Undefined
  end.

(** [o[k] = v]: overwrite the own property in place, or append a new one. *)
Fixpoint js_set {V} (o : js_object V) (k : string) (v : V) : js_object V :=
  match o with
  | [] => [(k, v)]
  | (k', v') :: o' =>
      if String.eqb k' k then (k', v) :: o' else (k', v') :: js_set o' k v
  end.

(** ** Array indices and the order of [Object.keys] *)

(** The value of a string of decimal digits, [None] if another character
    occurs. *)
Fixpoint digits_value (s : string) (acc : N) : option N :=
  match s with
  | EmptyString => Some acc
  | String c s' =>
      let n := nat_of_ascii c in
      if (48 <=? n)%nat && (n <=? 57)%nat
      then digits_value s' (acc * 10 + N.of_nat (n - 48))%N
      else None
  end.

(** A property key is an array index when it is the canonical decimal
    string (no leading zero) of a number below 2^32 - 1. *)
Definition array_index (k : string) : option N :=
  match k with
  | EmptyString => None
  | String c rest =>
      if Ascii.eqb c "0" then (if String.eqb rest "" then Some 0%N else None)
      else match digits_value k 0 with
           | Some n => if (n <? 4294967295)%N then Some n else None
           | None => None
           end
  end.

Definition is_index (k : string) : bool :=
  match array_index k with Some _ => true | None => false end.

Definition index_le (a b : string) : Prop :=
  (default 0 (array_index a) <= default 0 (array_index b))%N.

#[export] Instance index_le_dec : RelDecision index_le :=
  fun a b => decide (default 0 (array_index a) <= default 0 (array_index b))%N.

(** The order in which own keys created in the order [ks] are listed. *)
Definition key_order (ks : list string) : list string :=
  merge_sort index_le (List.filter is_index ks) ++
  List.filter (fun k => negb (is_index k)) ks.

(** [Object.keys(o)]. *)
Definition keys {V} (o : js_object V) : list string := key_order (map fst o).

(** ** Lemmas *)

Section Lemmas.
Context {V : Type}.
Implicit Types (o : js_object V).

Lemma get_own_set_eq o k v : get_own (js_set o k v) k = Some v.
Proof.
  induction o as [|[k' v'] o IH]; simpl; [by rewrite String.eqb_refl|].
  destruct (String.eqb_spec k' k) as [->|]; simpl;
    [by rewrite String.eqb_refl|by destruct (String.eqb_spec k' k)].
Qed.

Lemma get_own_set_ne o k k' v : k <> k' -> get_own (js_set o k v) k' = get_own o k'.
Proof.
  intros Hne. induction o as [|[k0 v0] o IH]; simpl.
  - by destruct (String.eqb_spec k k').
  - destruct (String.eqb_spec k0 k) as [->|]; simpl.
    + by destruct (String.eqb_spec k k').
    + by rewrite IH.
Qed.

Lemma key_order_perm ks : Permutation (key_order ks) ks.
Proof.
  unfold key_order. rewrite (merge_sort_Permutation index_le).
  symmetry. apply filter_split_perm.
Qed.

(** Without integer-like keys, [Object.keys] is the creation order. *)
Lemma key_order_no_index ks :
  Forall (fun k => is_index k = false) ks -> key_order ks = ks.
Proof.
  intros Hks. rewrite Forall_forall in Hks. unfold key_order.
  rewrite (List.filter_ext_in is_index (fun _ => false)), List.filter_false; simpl.
  - rewrite (List.filter_ext_in _ (fun _ => true)), List.filter_true; [done|].
    intros k Hk%list_elem_of_In. by rewrite Hks.
  - intros k Hk%list_elem_of_In. by apply Hks.
Qed.

Lemma elem_of_keys o k : k ∈ keys o <-> k ∈ map fst o.
Proof. unfold keys. by rewrite key_order_perm. Qed.

Lemma get_own_Some_keys o k v : get_own o k = Some v -> k ∈ keys o.
Proof.
  rewrite elem_of_keys.
  induction o as [|[k' v'] o IH]; simpl; [done|].
  destruct (String.eqb_spec k' k) as [->|]; intros H; [left|right; auto].
Qed.

Lemma get_own_None_keys o k : get_own o k = None <-> k ∉ keys o.
Proof.
  rewrite elem_of_keys.
  induction o as [|[k' v'] o IH]; simpl; [split; [intros _; apply not_elem_of_nil|done]|].
  rewrite not_elem_of_cons, <- IH. destruct (String.eqb_spec k' k); naive_solver.
Qed.

(** Writing an existing key keeps the creation order. *)
Lemma map_fst_set_present o k v : k ∈ map fst o -> map fst (js_set o k v) = map fst o.
Proof.
  induction o as [|[k' v'] o IH]; simpl; [by intros ?%not_elem_of_nil|].
  rewrite elem_of_cons. destruct (String.eqb_spec k' k) as [->|]; [done|].
  intros [?|Hk]; [congruence|]. simpl. by rewrite IH.
Qed.

(** Writing a new key creates it last. *)
Lemma map_fst_set_absent o k v : k ∉ map fst o -> map fst (js_set o k v) = map fst o ++ [k].
Proof.
  induction o as [|[k' v'] o IH]; simpl; [done|].
  rewrite not_elem_of_cons. intros [Hne Hk].
  destruct (String.eqb_spec k' k); [congruence|]. simpl. by rewrite IH.
Qed.

Lemma keys_set_present o k v : k ∈ keys o -> keys (js_set o k v) = keys o.
Proof. rewrite elem_of_keys. intros Hk. unfold keys. by rewrite map_fst_set_present. Qed.

Lemma js_set_set o k v v' : js_set (js_set o k v) k v' = js_set o k v'.
Proof.
  induction o as [|[k0 v0] o IH]; simpl; [by rewrite String.eqb_refl|].
  destruct (String.eqb_spec k0 k) as [->|]; simpl;
    [by rewrite String.eqb_refl|].
  destruct (String.eqb_spec k0 k); [congruence|]. by rewrite IH.
Qed.

(** Objects built key by key from a function of the key. *)
Lemma get_own_map (f : string -> V) ks k :
  get_own (map (fun k => (k, f k)) ks) k = if decide (k ∈ ks) then Some (f k) else None.
Proof.
  induction ks as [|k' ks IH]; simpl; [done|]. rewrite IH.
  destruct (String.eqb_spec k' k) as [->|];
    repeat case_decide; set_solver.
Qed.

Lemma js_set_map_in (f : string -> V) ks k v :
  NoDup ks -> k ∈ ks ->
  js_set (map (fun k => (k, f k)) ks) k v =
  map (fun k' => (k', if String.eqb k' k then v else f k')) ks.
Proof.
  induction ks as [|k' ks IH]; simpl; [by intros _ ?%not_elem_of_nil|].
  intros [Hk' Hnd]%NoDup_cons Hk. destruct (String.eqb_spec k' k) as [->|Hne].
  - f_equal. apply map_ext_in. intros k'' Hk''%list_elem_of_In.
    destruct (String.eqb_spec k'' k); [subst; done|done].
  - f_equal. apply IH; [done|]. set_solver.
Qed.

Lemma js_set_map_notin (f : string -> V) ks k v :
  k ∉ ks -> js_set (map (fun k => (k, f k)) ks) k v = map (fun k => (k, f k)) ks ++ [(k, v)].
Proof.
  induction ks as [|k' ks IH]; simpl; [done|]. intros Hk.
  destruct (String.eqb_spec k' k); [set_solver|]. f_equal. apply IH. set_solver.
Qed.
End Lemmas.
