(* ===== verification/ArraySort.v ===== *)
(** * [Array.prototype.sort] with a comparator

    The engine's algorithm (TimSort in V8) is not specified by the
    language beyond being stable since ES2019; the model is a stable
    insertion sort on the comparator's sign.  [sort_unique] shows that
    when the comparator is a strict total order every sorted permutation
    is the same list, so any correct engine returns [sort cmp l]. *)

From S2P Require Import Prelude.

Section Sort.
Context {A : Type} (cmp : A -> A -> Z).

(** Insert [x] after every element that does not compare greater. *)
Fixpoint insert (x : A) (l : list A) : list A :=
  match l with
  | [] => [x]
  | y :: l' => if Z.gtb (cmp y x) 0 then x :: y :: l' else y :: insert x l'
  end.

(** [l.sort(cmp)]: insert the elements left to right. *)
Definition sort (l : list A) : list A :=
  fold_left (fun acc x => insert x acc) l [].

Definition cmp_le (a b : A) : Prop := (cmp a b <= 0)%Z.

Lemma insert_perm x l : Permutation (insert x l) (x :: l).
Proof.
  induction l as [|y l IH]; simpl; [done|].
  destruct (Z.gtb (cmp y x) 0); [done|].
  rewrite IH. constructor.
Qed.

Lemma sort_perm_acc l acc : Permutation (fold_left (fun acc x => insert x acc) l acc) (acc ++ l).
Proof.
  revert acc. induction l as [|x l IH]; intros acc; simpl; [by rewrite app_nil_r|].
  rewrite IH, insert_perm. by rewrite <- Permutation_middle.
Qed.

(** The sorted array holds exactly the input elements. *)
Lemma sort_perm l : Permutation (sort l) l.
Proof. unfold sort. by rewrite sort_perm_acc. Qed.

(** In a strongly sorted list every element is related to the later ones. *)
Lemma strongly_sorted_lookup (R : A -> A -> Prop) l i j x y :
  StronglySorted R l -> i < j -> l !! i = Some x -> l !! j = Some y -> R x y.
Proof.
  intros Hs. revert i j. induction Hs as [|z l Hs IH Hz]; intros i j Hij Hi Hj; [done|].
  destruct i as [|i], j as [|j]; simpl in *; [lia| |lia|].
  - invc Hi. eapply Forall_forall; [done|]. by eapply list_elem_of_lookup_2.
  - eapply IH; [|done|done]. lia.
Qed.

Section Total.
Hypothesis cmp_opp : forall a b, cmp b a = (- cmp a b)%Z.

Lemma insert_sorted x l : Sorted cmp_le l -> Sorted cmp_le (insert x l).
Proof.
  induction 1 as [|y l Hl IH Hhd]; simpl; [by repeat constructor|].
  destruct (Z.gtb_spec (cmp y x) 0) as [Hgt|Hle].
  - constructor; [by constructor|]. constructor. unfold cmp_le. rewrite cmp_opp. lia.
  - constructor; [done|]. destruct l as [|z l]; simpl.
    + by constructor.
    + invc Hhd. destruct (Z.gtb (cmp z x) 0); by constructor.
Qed.

(** The result is ordered by the comparator. *)
Lemma sort_sorted l : Sorted cmp_le (sort l).
Proof.
  unfold sort. cut (forall acc, Sorted cmp_le acc ->
    Sorted cmp_le (fold_left (fun acc x => insert x acc) l acc)); [auto|].
  induction l as [|x l IH]; intros acc Hacc; simpl; auto using insert_sorted.
Qed.

Section Strict.
Hypothesis cmp_eq : forall a b, cmp a b = 0%Z -> a = b.
Hypothesis cmp_trans : forall a b c,
  (cmp a b < 0)%Z -> (cmp b c < 0)%Z -> (cmp a c < 0)%Z.

Lemma cmp_le_trans a b c : cmp_le a b -> cmp_le b c -> cmp_le a c.
Proof.
  unfold cmp_le. intros Hab Hbc.
  destruct (Z.eq_dec (cmp a b) 0%Z) as [->%cmp_eq|]; [done|].
  destruct (Z.eq_dec (cmp b c) 0%Z) as [->%cmp_eq|]; [lia|].
  pose proof (cmp_trans a b c). lia.
Qed.

Lemma cmp_le_antisym a b : cmp_le a b -> cmp_le b a -> a = b.
Proof. unfold cmp_le. rewrite (cmp_opp a b). intros. apply cmp_eq. lia. Qed.

Lemma strongly_sorted_perm_unique l1 l2 :
  StronglySorted cmp_le l1 -> StronglySorted cmp_le l2 ->
  Permutation l1 l2 -> l1 = l2.
Proof.
  intros H1. revert l2. induction H1 as [|x l1 H1 IH Hx]; intros l2 H2 Hp.
  { by apply Permutation_nil in Hp. }
  destruct H2 as [|y l2 H2 Hy]; [by apply Permutation_sym, Permutation_nil in Hp|].
  assert (x = y) as <-.
  { assert (y ∈ x :: l1) as Hy1 by (rewrite Hp; left).
    assert (x ∈ y :: l2) as Hx2 by (rewrite <- Hp; left).
    apply elem_of_cons in Hy1 as [->|Hy1]; [done|].
    apply elem_of_cons in Hx2 as [->|Hx2]; [done|].
    apply cmp_le_antisym; eapply Forall_forall; eauto. }
  f_equal. apply IH; [done|]. by eapply Permutation_cons_inv.
Qed.

(** Two sorted permutations of one another are equal. *)
Lemma sort_unique l1 l2 :
  Sorted cmp_le l1 -> Sorted cmp_le l2 -> Permutation l1 l2 -> l1 = l2.
Proof.
  intros. apply strongly_sorted_perm_unique; auto;
    apply Sorted_StronglySorted; auto; intros x y z; apply cmp_le_trans.
Qed.
End Strict.
End Total.
End Sort.
