(* ===== verification/SubjectCatalog.v ===== *)
(** * The subject catalogue of SubjectList.jsx

    The memoised derivations of src/src/pages/subject/SubjectList.jsx
    (lines 145-249; src/test4.jsx 178-264 is the same code):
    [groupedSubjects] (reduce into a JS object keyed by class),
    [sortedClassNames] (sort of [Object.keys] with the [classOrder]
    comparator), [filteredSubjects], [classStats] and [totalStats].
    [group_spec] is the partition the grouping is meant to compute;
    [groupedSubjects_spec] shows the code computes it whenever no class
    is named like an [Object.prototype] property, and
    [groupedSubjects_throws] that it throws otherwise. *)

From S2P Require Import Prelude JsString JsObject ArraySort.

(** ** Data *)

(** A row of [FETCH_SUBJECT_LIST]: [{id, class_subject, subject, subject_status}]. *)
Record subject_row := mk_subject {
  id : Z;
  class_subject : string;
  subject : string;
  subject_status : string
}.

#[export] Instance subject_row_eq_dec : EqDecision subject_row.
Proof. solve_decision. Defined.

(** ** [groupedSubjects] (SubjectList.jsx 145-155) *)

Definition push_error : js_error :=
  TypeError "acc[subject.class_subject].push is not a function".

(** The reducer: [if (!acc[k]) acc[k] = []; acc[k].push(subject); return acc]. *)
Definition group_step (acc : js_object (list subject_row)) (s : subject_row)
  : js_result (js_object (list subject_row)) :=
  let k := class_subject s in
  let acc1 := match js_get acc k with Undefined => js_set acc k [] | _ => acc end in
  match js_get acc1 k with
  | Own bucket => Ok (js_set acc1 k (bucket ++ [s]))
  | _ => Throw push_error
  end.

(** [if (!subjectData) return {}; return subjectData.reduce(..., {})]. *)
Definition groupedSubjects (subjectData : option (list subject_row))
  : js_result (js_object (list subject_row)) :=
  match subjectData with
  | None => Ok []
  | Some rows => js_reduce group_step rows []
  end.

(** ** The partition the grouping computes *)

Definition add_key (ks : list string) (k : string) : list string :=
  if decide (k ∈ ks) then ks else ks ++ [k].

(** The classes of [rows] in order of first occurrence. *)
Definition class_keys (rows : list subject_row) : list string :=
  fold_left add_key (map class_subject rows) [].

Definition in_class (k : string) (s : subject_row) : bool :=
  String.eqb (class_subject s) k.

Definition bucket (rows : list subject_row) (k : string) : list subject_row :=
  List.filter (in_class k) rows.

Definition group_spec (rows : list subject_row) : js_object (list subject_row) :=
  map (fun k => (k, bucket rows k)) (class_keys rows).

Definition not_proto (s : subject_row) : Prop :=
  class_subject s ∉ object_prototype_props.

(** ** Lemmas on the partition *)

Lemma class_keys_snoc rows s :
  class_keys (rows ++ [s]) = add_key (class_keys rows) (class_subject s).
Proof. unfold class_keys. by rewrite map_app, fold_left_app. Qed.

Lemma elem_of_add_key ks k k' : k' ∈ add_key ks k <-> k' = k \/ k' ∈ ks.
Proof.
  unfold add_key. case_decide; set_solver.
Qed.

Lemma NoDup_add_key ks k : NoDup ks -> NoDup (add_key ks k).
Proof.
  unfold add_key. case_decide; [done|]. intros. apply NoDup_app.
  split; [done|]. split; [|apply NoDup_singleton]. set_solver.
Qed.

Lemma elem_of_class_keys rows k : k ∈ class_keys rows <-> exists s, s ∈ rows /\ class_subject s = k.
Proof.
  induction rows as [|s rows IH] using rev_ind.
  - unfold class_keys. simpl. split; [by intros ?%not_elem_of_nil|]. set_solver.
  - rewrite class_keys_snoc, elem_of_add_key, IH. setoid_rewrite elem_of_app.
    setoid_rewrite list_elem_of_singleton. naive_solver.
Qed.

Lemma NoDup_class_keys rows : NoDup (class_keys rows).
Proof.
  induction rows as [|s rows IH] using rev_ind; [constructor|].
  rewrite class_keys_snoc. by apply NoDup_add_key.
Qed.

Lemma bucket_snoc rows s k :
  bucket (rows ++ [s]) k = bucket rows k ++ (if in_class k s then [s] else []).
Proof. unfold bucket. rewrite List.filter_app. simpl. by destruct (in_class k s). Qed.

Lemma bucket_absent rows k : k ∉ class_keys rows -> bucket rows k = [].
Proof.
  rewrite elem_of_class_keys. intros Hk. unfold bucket.
  rewrite (List.filter_ext_in _ (fun _ => false)); [apply List.filter_false|].
  intros s Hs%list_elem_of_In. unfold in_class.
  destruct (String.eqb_spec (class_subject s) k); naive_solver.
Qed.

(** One call of the reducer extends the partition by one row. *)
Lemma group_step_spec rows s :
  not_proto s -> group_step (group_spec rows) s = Ok (group_spec (rows ++ [s])).
Proof.
  intros Hs. unfold group_step, group_spec, js_get.
  rewrite class_keys_snoc, get_own_map. unfold add_key.
  pose proof (NoDup_class_keys rows) as Hnd.
  destruct (decide (class_subject s ∈ class_keys rows)) as [Hin|Hout].
  - rewrite get_own_map, decide_True by done. f_equal.
    rewrite js_set_map_in by done. apply map_ext_in. intros k _.
    rewrite bucket_snoc. unfold in_class.
    destruct (String.eqb_spec k (class_subject s)) as [->|Hne].
    + by rewrite String.eqb_refl.
    + rewrite (proj2 (String.eqb_neq (class_subject s) k)) by congruence.
      by rewrite app_nil_r.
  - rewrite decide_False by done. rewrite get_own_set_eq, js_set_set.
    f_equal. rewrite js_set_map_notin, map_app by done. f_equal.
    + apply map_ext_in. intros k Hk%list_elem_of_In. rewrite bucket_snoc.
      unfold in_class. destruct (String.eqb_spec (class_subject s) k); [set_solver|].
      by rewrite app_nil_r.
    + simpl. rewrite bucket_snoc, bucket_absent by done. unfold in_class.
      by rewrite String.eqb_refl.
Qed.

Lemma group_reduce_spec prefix rows :
  Forall not_proto rows ->
  js_reduce group_step rows (group_spec prefix) = Ok (group_spec (prefix ++ rows)).
Proof.
  revert prefix. induction rows as [|s rows IH]; intros prefix Hrows; simpl.
  - by rewrite app_nil_r.
  - apply Forall_cons in Hrows as [Hs Hrows].
    rewrite group_step_spec by done. simpl. rewrite IH by done.
    by rewrite <- app_assoc.
Qed.

Lemma keys_group_order rows : keys (group_spec rows) = key_order (class_keys rows).
Proof. unfold keys, group_spec. rewrite map_map. by rewrite map_id. Qed.

Lemma keys_group_spec rows : Permutation (keys (group_spec rows)) (class_keys rows).
Proof. rewrite keys_group_order. apply key_order_perm. Qed.

Lemma groupedSubjects_Ok rows :
  Forall not_proto rows -> groupedSubjects (Some rows) = Ok (group_spec rows).
Proof. exact (group_reduce_spec [] rows). Qed.

(** C1: [groupedSubjects] computes the partition of the rows by class: one
    own property per class, created in order of first occurrence, holding
    the rows of that class in source order; [Object.keys] then lists the
    classes named by an array index (["9"], ["10"]) first, in ascending
    numeric order, and the other classes in order of first occurrence. *)
Theorem groupedSubjects_spec rows :
  Forall not_proto rows ->
  groupedSubjects (Some rows) = Ok (group_spec rows) /\
  keys (group_spec rows) = key_order (class_keys rows).
Proof. intros H. split; [by apply groupedSubjects_Ok|apply keys_group_order]. Qed.

(** A row whose class is named like a property of [Object.prototype]
    (["constructor"], ["toString"], ...) makes the reducer read the
    inherited method, and [push] on it throws. *)
Lemma group_step_throws prefix r :
  Forall not_proto prefix -> class_subject r ∈ object_prototype_props ->
  group_step (group_spec prefix) r = Throw push_error.
Proof.
  intros Hpre Hr.
  assert (class_subject r ∉ class_keys prefix) as Hout.
  { rewrite elem_of_class_keys. intros (r' & Hr' & Heq).
    eapply Forall_forall in Hpre; [|done]. unfold not_proto in Hpre. congruence. }
  assert (js_get (group_spec prefix) (class_subject r) = Inherited (class_subject r)) as Hget.
  { unfold js_get, group_spec. rewrite get_own_map.
    rewrite decide_False by exact Hout. by rewrite decide_True by exact Hr. }
  unfold group_step. cbv zeta. rewrite Hget. cbv iota beta. by rewrite Hget.
Qed.

Lemma group_reduce_throws prefix rows s :
  Forall not_proto prefix -> s ∈ rows -> class_subject s ∈ object_prototype_props ->
  js_reduce group_step rows (group_spec prefix) = Throw push_error.
Proof.
  revert prefix. induction rows as [|r rows IH]; intros prefix Hpre Hs Hp; [set_solver|].
  simpl. destruct (decide (not_proto r)) as [Hr|Hr].
  - rewrite group_step_spec by done. simpl.
    apply elem_of_cons in Hs as [->|Hs]; [done|]. apply IH; [|done|done].
    apply Forall_app. split; [done|]. by apply Forall_singleton.
  - unfold not_proto in Hr. apply dec_stable in Hr.
    by rewrite group_step_throws.
Qed.

(** C10: A row whose class is named like a property of [Object.prototype]
    (["constructor"], ["toString"], ...) makes the reducer read the
    inherited method, and [push] on it throws: the page cannot render. *)
Theorem groupedSubjects_throws rows s :
  s ∈ rows -> class_subject s ∈ object_prototype_props ->
  groupedSubjects (Some rows) = Throw push_error.
Proof. intros Hs Hp. exact (group_reduce_throws [] rows s (Forall_nil_2 _) Hs Hp). Qed.

Lemma buckets_perm ks rows :
  NoDup ks -> (forall s, s ∈ rows -> class_subject s ∈ ks) ->
  Permutation (concat (map (bucket rows) ks)) rows.
Proof.
  revert rows. induction ks as [|k ks IH]; intros rows Hnd Hcov; simpl.
  - destruct rows as [|s rows]; [done|]. exfalso.
    by apply (not_elem_of_nil (class_subject s)), Hcov; left.
  - apply NoDup_cons in Hnd as [Hk Hnd].
    set (rest := List.filter (fun s => negb (in_class k s)) rows).
    assert (map (bucket rows) ks = map (bucket rest) ks) as ->.
    { apply map_ext_in. intros k' Hk'%list_elem_of_In. unfold bucket, rest.
      rewrite filter_filter_and. apply List.filter_ext. intros s. unfold in_class.
      destruct (String.eqb_spec (class_subject s) k'), (String.eqb_spec (class_subject s) k);
        simpl; congruence. }
    rewrite IH; [unfold bucket, rest; symmetry; apply filter_split_perm|done|].
    intros s Hs%list_elem_of_In. apply List.filter_In in Hs as [Hs Hnk].
    apply list_elem_of_In, Hcov, elem_of_cons in Hs as [Heq|]; [|done].
    unfold in_class in Hnk. rewrite Heq, String.eqb_refl in Hnk. done.
Qed.

(** C8: The buckets of [groupedSubjects] hold every row exactly once, each in
    the bucket of its own class. *)
Theorem groupedSubjects_partition rows g :
  groupedSubjects (Some rows) = Ok g -> Forall not_proto rows ->
  Permutation (concat (map snd g)) rows /\
  forall k b, get_own g k = Some b -> Forall (fun s => class_subject s = k) b.
Proof.
  intros Hg Hrows. rewrite groupedSubjects_Ok in Hg by done. invc Hg.
  unfold group_spec. rewrite map_map. simpl. split.
  - apply buckets_perm; [apply NoDup_class_keys|].
    intros s Hs. apply elem_of_class_keys. eauto.
  - intros k b. rewrite get_own_map. case_decide; [|done]. intros [= <-].
    apply Forall_forall. intros s Hs%list_elem_of_In. apply List.filter_In in Hs as [_ Hs].
    by apply String.eqb_eq.
Qed.

(** ** [sortedClassNames] (SubjectList.jsx 158-191) *)

Definition classOrder : list string :=
  ["NURSERY"; "LKG"; "UKG"; "I"; "II"; "III"; "IV"; "V"; "VI"; "VII";
   "VIII"; "IX"; "X"].

Section Ordering.
Context `{Collator}.

(** The comparator passed to [Object.keys(groupedSubjects).sort]. *)
Definition classCompare (a b : string) : Z :=
  let indexA := indexOf classOrder a in
  let indexB := indexOf classOrder b in
  if negb (Z.eqb indexA (-1)) && negb (Z.eqb indexB (-1)) then (indexA - indexB)%Z
  else if negb (Z.eqb indexA (-1)) then (-1)%Z
  else if negb (Z.eqb indexB (-1)) then 1%Z
  else localeCompare a b.

Definition sortedClassNames (groupedSubjects : js_object (list subject_row)) : list string :=
  sort classCompare (keys groupedSubjects).

Lemma localeCompare_opp a b : localeCompare b a = (- localeCompare a b)%Z.
Proof. unfold localeCompare. rewrite collate_antisym. by destruct (collate a b). Qed.

Lemma localeCompare_neg a b : (localeCompare a b < 0)%Z <-> collate a b = Lt.
Proof. unfold localeCompare. destruct (collate a b); split; (done || lia). Qed.

Lemma Z_of_nat_neq_m1 n : Z.eqb (Z.of_nat n) (-1) = false.
Proof. apply Z.eqb_neq. lia. Qed.

(** Split on whether [x] is in [classOrder], and evaluate its index. *)
Ltac class_cases x :=
  let n := fresh "n" in let Hn := fresh "Hn" in let Hx := fresh "Hx" in
  destruct (indexOf_cases classOrder x) as [[Hx ->]|[Hx (n & -> & Hn)]];
  rewrite ?Z_of_nat_neq_m1; simpl.

Lemma classCompare_opp a b : classCompare b a = (- classCompare a b)%Z.
Proof.
  unfold classCompare. class_cases a; class_cases b; try lia.
  apply localeCompare_opp.
Qed.

Lemma classCompare_eq a b : classCompare a b = 0%Z -> a = b.
Proof.
  unfold classCompare. class_cases a; class_cases b; try lia.
  - unfold localeCompare. destruct (collate a b) eqn:E; try lia.
    intros _. by apply collate_eq.
  - match goal with
    | Ha : classOrder !! ?i = Some a, Hb : classOrder !! ?j = Some b |- _ =>
        intros Hab; assert (i = j) as -> by lia; congruence
    end.
Qed.
Lemma classCompare_trans a b c :
  (classCompare a b < 0)%Z -> (classCompare b c < 0)%Z -> (classCompare a c < 0)%Z.
Proof.
  unfold classCompare. class_cases a; class_cases b; class_cases c; try lia.
  rewrite !localeCompare_neg. apply collate_trans.
Qed.

(** [sortedClassNames] lists the keys of [groupedSubjects], ordered by
    the comparator. *)
Lemma sortedClassNames_sorted_perm g :
  Sorted (cmp_le classCompare) (sortedClassNames g) /\
  Permutation (sortedClassNames g) (keys g).
Proof.
  split; [apply sort_sorted, classCompare_opp|apply sort_perm].
Qed.

(** C9: Any sorted permutation of the keys is [sortedClassNames]: the
    result does not depend on the engine's sorting algorithm nor on the
    order [Object.keys] reports the classes in. *)
Lemma sortedClassNames_unique g ks :
  Sorted (cmp_le classCompare) ks -> Permutation ks (keys g) -> ks = sortedClassNames g.
Proof.
  intros Hs Hp. destruct (sortedClassNames_sorted_perm g) as [Hs' Hp'].
  eapply sort_unique; eauto using classCompare_opp, classCompare_eq, classCompare_trans.
  by rewrite Hp, Hp'.
Qed.
(** The order the spec asks of the class tabs: classes of [classOrder]
    first, by their index there, then the others by [localeCompare]. *)
Definition class_before (a b : string) : Prop :=
  (a ∈ classOrder /\ b ∈ classOrder /\ (indexOf classOrder a < indexOf classOrder b)%Z) \/
  (a ∈ classOrder /\ b ∉ classOrder) \/
  (a ∉ classOrder /\ b ∉ classOrder /\ collate a b = Lt).

Lemma classCompare_neg_iff a b : (classCompare a b < 0)%Z <-> class_before a b.
Proof.
  unfold class_before, classCompare.
  class_cases a; class_cases b; rewrite ?localeCompare_neg;
    repeat match goal with H : classOrder !! _ = Some _ |- _ =>
      apply list_elem_of_lookup_2 in H end; naive_solver lia.
Qed.

(** C2: Positions in [sortedClassNames] follow [class_before] exactly. *)
Theorem sortedClassNames_order g i j a b :
  NoDup (keys g) ->
  sortedClassNames g !! i = Some a -> sortedClassNames g !! j = Some b ->
  (i < j <-> class_before a b).
Proof.
  intros Hnd Ha Hb. destruct (sortedClassNames_sorted_perm g) as [Hs Hp].
  apply Sorted_StronglySorted in Hs;
    [|exact (cmp_le_trans _ classCompare_eq classCompare_trans)].
  assert (NoDup (sortedClassNames g)) as Hnd' by (by rewrite Hp).
  rewrite <- classCompare_neg_iff. split.
  - intros Hij. pose proof (strongly_sorted_lookup _ _ _ _ _ _ Hs Hij Ha Hb) as Hle.
    unfold cmp_le in Hle. destruct (decide (classCompare a b = 0%Z)) as [->%classCompare_eq|];
      [|lia]. assert (i = j) by (eapply NoDup_lookup; eauto). lia.
  - intros Hlt. destruct (decide (i < j)) as [|Hji]; [done|].
    destruct (decide (i = j)) as [->|]; [rewrite Ha in Hb; invc Hb; pose proof (classCompare_opp b b); lia|].
    assert (j < i) as Hji' by lia.
    pose proof (strongly_sorted_lookup _ _ _ _ _ _ Hs Hji' Hb Ha) as Hle.
    unfold cmp_le in Hle. rewrite classCompare_opp in Hle. lia.
Qed.
End Ordering.

(** ** [filteredSubjects] (SubjectList.jsx 193-212) *)

Definition matchesSearch (searchTerm : string) (s : subject_row) : bool :=
  String.eqb searchTerm "" ||
  includes (toLowerCase (subject s)) (toLowerCase searchTerm) ||
  includes (toLowerCase (class_subject s)) (toLowerCase searchTerm).

(** [filterActive] is [null], [true] or [false]. *)
Definition matchesFilter (filterActive : option bool) (s : subject_row) : bool :=
  match filterActive with
  | None => true
  | Some true => String.eqb (subject_status s) "Active"
  | Some false => String.eqb (subject_status s) "Inactive"
  end.

Definition matchesClass (selectedClass : string) (s : subject_row) : bool :=
  String.eqb selectedClass "all" || String.eqb (class_subject s) selectedClass.

Definition filteredSubjects (subjectData : option (list subject_row))
    (searchTerm : string) (filterActive : option bool) (selectedClass : string)
  : list subject_row :=
  match subjectData with
  | None => []
  | Some rows =>
      List.filter (fun s => matchesSearch searchTerm s && matchesFilter filterActive s
                            && matchesClass selectedClass s) rows
  end.

(** C4: The filtered view keeps, in source order, exactly the rows that
    (a) match an empty search, or contain the lower-cased search text in
    their lower-cased subject or class name, (b) have any status when the
    filter is [null], status ["Active"] when it is [true], status
    ["Inactive"] when it is [false], and (c) belong to the selected class
    unless it is ["all"]; with no rows loaded the view is empty. *)
Theorem filteredSubjects_spec rows t fa c :
  filteredSubjects None t fa c = [] /\
  sublist (filteredSubjects (Some rows) t fa c) rows /\
  forall s, s ∈ filteredSubjects (Some rows) t fa c <->
    s ∈ rows /\
    (t = "" \/
     (exists p q, toLowerCase (subject s) = (p +:+ toLowerCase t +:+ q)%string) \/
     (exists p q, toLowerCase (class_subject s) = (p +:+ toLowerCase t +:+ q)%string)) /\
    (fa = None \/ (fa = Some true /\ subject_status s = "Active") \/
     (fa = Some false /\ subject_status s = "Inactive")) /\
    (c = "all" \/ class_subject s = c).
Proof.
  split; [done|]. split; [apply filter_sublist|]. intros s. simpl.
  rewrite !list_elem_of_In, List.filter_In, !andb_true_iff.
  unfold matchesSearch, matchesFilter, matchesClass.
  rewrite !orb_true_iff, <- !includes_iff, !String.eqb_eq.
  destruct fa as [[]|]; rewrite ?String.eqb_eq; naive_solver.
Qed.


(** With the initial selectors (empty search, [null] status, ["all"])
    every row is shown. *)
Theorem filteredSubjects_all rows : filteredSubjects (Some rows) "" None "all" = rows.
Proof.
  simpl. rewrite (List.filter_ext_in _ (fun _ => true)); [apply List.filter_true|].
  intros s _. reflexivity.
Qed.

(** ** [classStats] and [totalStats] (SubjectList.jsx 215-249) *)

Record counts := mk_counts { total : nat; active : nat; inactive : nat }.

(** An element of [classStats]: [{name, total, active, inactive}]. *)
Record class_stat := mk_class_stat { name : string; stat_counts : counts }.

Definition is_active (s : subject_row) : bool := String.eqb (subject_status s) "Active".

(** [groupedSubjects[className] || []]. *)
Definition subjects_of (grouped : js_object (list subject_row)) (className : string)
  : js_result (list subject_row) :=
  match js_get grouped className with
  | Own v => Ok v
  | Undefined => Ok []
  | Inherited _ => Throw (TypeError "subjects.filter is not a function")
  end.

Definition class_stat_of (grouped : js_object (list subject_row)) (className : string)
  : js_result class_stat :=
  js_bind (subjects_of grouped className) (fun subjects =>
    let activeCount := length (List.filter is_active subjects) in
    Ok (mk_class_stat className
          (mk_counts (length subjects) activeCount (length subjects - activeCount)))).

Definition classStats (subjectData : option (list subject_row))
    (grouped : js_object (list subject_row)) (sortedClassNames : list string)
  : js_result (list class_stat) :=
  match subjectData with
  | None => Ok []
  | Some _ => js_map (class_stat_of grouped) sortedClassNames
  end.

Definition zero_counts : counts := mk_counts 0 0 0.

Definition add_counts (acc : counts) (stat : class_stat) : counts :=
  mk_counts (total acc + total (stat_counts stat)) (active acc + active (stat_counts stat))
    (inactive acc + inactive (stat_counts stat)).

Definition totalStats (classStats : list class_stat) : counts :=
  if Nat.eqb (length classStats) 0 then zero_counts
  else fold_left add_counts classStats zero_counts.

(** ** Lemmas on the statistics *)

Definition stat_of_bucket (rows : list subject_row) (k : string) : class_stat :=
  let b := bucket rows k in
  mk_class_stat k (mk_counts (length b) (length (List.filter is_active b))
                     (length b - length (List.filter is_active b))).

Lemma fold_add_counts cs acc :
  fold_left add_counts cs acc =
  mk_counts (total acc + sum_list (map (fun c => total (stat_counts c)) cs))
            (active acc + sum_list (map (fun c => active (stat_counts c)) cs))
            (inactive acc + sum_list (map (fun c => inactive (stat_counts c)) cs)).
Proof.
  revert acc. induction cs as [|c cs IH]; intros [t a i]; simpl; [f_equal; lia|].
  rewrite IH. simpl. f_equal; lia.
Qed.

Lemma totalStats_sum cs :
  totalStats cs =
  mk_counts (sum_list (map (fun c => total (stat_counts c)) cs))
            (sum_list (map (fun c => active (stat_counts c)) cs))
            (sum_list (map (fun c => inactive (stat_counts c)) cs)).
Proof. unfold totalStats. destruct cs; [done|]. apply fold_add_counts. Qed.

(** Reading back: a grouping that succeeds is the partition. *)
Lemma groupedSubjects_Ok_inv rows g :
  groupedSubjects (Some rows) = Ok g -> Forall not_proto rows /\ g = group_spec rows.
Proof.
  intros Hg. assert (Forall not_proto rows) as Hrows.
  { apply Forall_forall. intros s Hs Hp.
    pose proof (group_reduce_throws [] rows s (Forall_nil_2 _) Hs Hp) as E.
    change (groupedSubjects (Some rows) = Throw push_error) in E. by rewrite E in Hg. }
  split; [done|]. rewrite groupedSubjects_Ok in Hg by done. by invc Hg.
Qed.

Lemma sum_bucket_filter rows names (f : subject_row -> bool) :
  Permutation names (class_keys rows) ->
  sum_list (map (fun k => length (List.filter f (bucket rows k))) names) =
  length (List.filter f rows).
Proof.
  intros Hp. rewrite <- (map_map (bucket rows) (fun b => length (List.filter f b))).
  rewrite (sum_list_perm _ (map (fun b => length (List.filter f b)) (map (bucket rows) (class_keys rows))))
    by (by rewrite Hp).
  rewrite <- (map_map (List.filter f) length), sum_list_length_concat, <- filter_concat.
  apply Permutation_length, filter_perm, buckets_perm; [apply NoDup_class_keys|].
  intros s Hs. apply elem_of_class_keys. eauto.
Qed.

Section Stats.
Context `{Collator}.

Lemma classStats_spec rows :
  Forall not_proto rows ->
  classStats (Some rows) (group_spec rows) (sortedClassNames (group_spec rows)) =
  Ok (map (stat_of_bucket rows) (sortedClassNames (group_spec rows))).
Proof.
  intros Hrows. apply js_map_Ok. intros k Hk.
  destruct (sortedClassNames_sorted_perm (group_spec rows)) as [_ Hp].
  rewrite Hp, keys_group_spec in Hk.
  unfold class_stat_of, subjects_of, js_get, group_spec. rewrite get_own_map, decide_True by done.
  reflexivity.
Qed.

(** The overall counts of [totalStats] are counts of the rows. *)
Lemma totalStats_rows rows g cs :
  groupedSubjects (Some rows) = Ok g ->
  classStats (Some rows) g (sortedClassNames g) = Ok cs ->
  totalStats cs = mk_counts (length rows) (length (List.filter is_active rows))
                    (length (List.filter (fun s => negb (is_active s)) rows)).
Proof.
  intros (Hrows & ->)%groupedSubjects_Ok_inv Hcs.
  rewrite classStats_spec in Hcs by done. invc Hcs.
  destruct (sortedClassNames_sorted_perm (group_spec rows)) as [_ Hp].
  rewrite keys_group_spec in Hp.
  rewrite totalStats_sum, !map_map. simpl. f_equal.
  - rewrite <- (List.filter_true rows) at 2. rewrite <- (sum_bucket_filter _ _ _ Hp).
    f_equal. apply map_ext. intros k. by rewrite List.filter_true.
  - by apply sum_bucket_filter.
  - rewrite <- (sum_bucket_filter _ _ _ Hp). f_equal. apply map_ext. intros k.
    pose proof (length_filter_split is_active (bucket rows k)). lia.
Qed.

(** C3: The statistics count the unfiltered rows: each class's total is its
    active plus inactive count, and the overall counts are the number
    of rows, of rows with status ["Active"], and of the other rows. *)
Theorem stats_consistent rows g cs :
  groupedSubjects (Some rows) = Ok g ->
  classStats (Some rows) g (sortedClassNames g) = Ok cs ->
  Forall (fun c => total (stat_counts c) = active (stat_counts c) + inactive (stat_counts c)) cs /\
  totalStats cs = mk_counts (length rows) (length (List.filter is_active rows))
                    (length (List.filter (fun s => negb (is_active s)) rows)).
Proof.
  intros Hg Hcs. split; [|by eapply totalStats_rows].
  apply groupedSubjects_Ok_inv in Hg as [Hrows ->].
  rewrite classStats_spec in Hcs by done. invc Hcs.
  apply Forall_forall. intros c (k & -> & _)%list_elem_of_fmap. simpl.
  pose proof (length_filter_split is_active (bucket rows k)). lia.
Qed.
End Stats.

Lemma filter_not_active_split rows :
  length (List.filter (fun s => negb (is_active s)) rows) =
  length (List.filter (fun s => String.eqb (subject_status s) "Inactive") rows) +
  length (List.filter (fun s => negb (is_active s) &&
                                 negb (String.eqb (subject_status s) "Inactive")) rows).
Proof.
  induction rows as [|s rows IH]; simpl; [done|]. unfold is_active in *.
  destruct (String.eqb_spec (subject_status s) "Active") as [Ha|Ha];
    destruct (String.eqb_spec (subject_status s) "Inactive") as [Hi|Hi];
    [congruence|simpl; lia..].
Qed.

Section Findings.
Context `{Collator}.

(** C20: The "inactive" count of [totalStats] is [total - active]: it counts
    every row whose status is not ["Active"], while the status filter set
    to "Inactive" shows only the rows whose status is ["Inactive"].  The
    two differ by the rows with any other status. *)
Theorem inactive_count_vs_filter rows g cs :
  groupedSubjects (Some rows) = Ok g ->
  classStats (Some rows) g (sortedClassNames g) = Ok cs ->
  inactive (totalStats cs) =
  length (filteredSubjects (Some rows) "" (Some false) "all") +
  length (List.filter (fun s => negb (is_active s) &&
                                 negb (String.eqb (subject_status s) "Inactive")) rows).
Proof.
  intros Hg Hcs. rewrite (totalStats_rows rows g cs Hg Hcs). simpl.
  rewrite filter_not_active_split. f_equal. f_equal. apply List.filter_ext. intros s.
  unfold matchesSearch, matchesClass. simpl. by rewrite andb_true_r.
Qed.
End Findings.

(** ** Scenarios and witnesses *)

Definition rows_three_classes : list subject_row :=
  [mk_subject 1 "III" "English" "Active"; mk_subject 2 "I" "Math" "Active";
   mk_subject 3 "Extra" "Chess" "Inactive"; mk_subject 4 "I" "Science" "Inactive"].

Definition rows_two_statuses : list subject_row :=
  [mk_subject 1 "I" "Math" "Active"; mk_subject 2 "I" "Science" "Inactive"].

Definition rows_with_pending : list subject_row :=
  [mk_subject 1 "I" "Math" "Active"; mk_subject 2 "I" "Science" "Inactive";
   mk_subject 3 "II" "Art" "Pending"].

Definition rows_with_constructor : list subject_row :=
  [mk_subject 1 "I" "Math" "Active"; mk_subject 2 "constructor" "Logic" "Active"].

(** Class keys ["III"; "I"; "Extra"] are shown as ["I"; "III"; "Extra"]. *)
Example sortedClassNames_scenario :
  match groupedSubjects (Some rows_three_classes) with
  | Ok g => keys g = ["III"; "I"; "Extra"] /\ sortedClassNames g = ["I"; "III"; "Extra"]
  | Throw _ => False
  end.
Proof. vm_compute. split; reflexivity. Qed.

(** Two rows of class "I", one active and one inactive. *)
Example stats_scenario :
  match groupedSubjects (Some rows_two_statuses) with
  | Ok g =>
      classStats (Some rows_two_statuses) g (sortedClassNames g) =
        Ok [mk_class_stat "I" (mk_counts 2 1 1)] /\
      totalStats [mk_class_stat "I" (mk_counts 2 1 1)] = mk_counts 2 1 1
  | Throw _ => False
  end.
Proof. vm_compute. split; reflexivity. Qed.

Lemma not_proto_three : Forall not_proto rows_three_classes.
Proof. apply (bool_decide_unpack _). vm_compute. reflexivity. Qed.

(** Classes "10", "I" and "9": [Object.keys] lists "9", "10", "I". *)
Definition rows_numeric_classes : list subject_row :=
  [mk_subject 1 "10" "Physics" "Active"; mk_subject 2 "I" "Math" "Active";
   mk_subject 3 "9" "Biology" "Active"; mk_subject 4 "10" "Chemistry" "Inactive"].

Lemma groupedSubjects_spec_witness :
  (groupedSubjects (Some rows_numeric_classes) = Ok (group_spec rows_numeric_classes) /\
   keys (group_spec rows_numeric_classes) = key_order (class_keys rows_numeric_classes)) /\
  key_order (class_keys rows_numeric_classes) = ["9"; "10"; "I"].
Proof.
  split; [apply groupedSubjects_spec; apply (bool_decide_unpack _); vm_compute; reflexivity|].
  vm_compute. reflexivity.
Defined.

Lemma groupedSubjects_throws_witness :
  groupedSubjects (Some rows_with_constructor) = Throw push_error.
Proof.
  apply (groupedSubjects_throws _ (mk_subject 2 "constructor" "Logic" "Active")).
  - apply (bool_decide_unpack _). vm_compute. reflexivity.
  - apply (bool_decide_unpack _). vm_compute. reflexivity.
Defined.

Lemma groupedSubjects_partition_witness :
  Permutation (concat (map snd (group_spec rows_three_classes))) rows_three_classes.
Proof.
  apply (groupedSubjects_partition rows_three_classes (group_spec rows_three_classes)).
  - vm_compute. reflexivity.
  - apply (bool_decide_unpack _). vm_compute. reflexivity.
Defined.


Lemma sortedClassNames_order_witness :
  class_before "I" "Extra" /\ ~ class_before "Extra" "III".
Proof.
  set (g := group_spec rows_three_classes).
  assert (NoDup (keys g)) as Hnd by (apply (bool_decide_unpack _); vm_compute; reflexivity).
  split.
  - apply (proj1 (sortedClassNames_order g 0 2 "I" "Extra" Hnd
                    ltac:(vm_compute; reflexivity) ltac:(vm_compute; reflexivity))).
    lia.
  - rewrite <- (sortedClassNames_order g 2 1 "Extra" "III" Hnd
                  ltac:(vm_compute; reflexivity) ltac:(vm_compute; reflexivity)).
    lia.
Defined.

Lemma sortedClassNames_unique_witness :
  ["I"; "III"; "Extra"] = sortedClassNames (group_spec rows_three_classes).
Proof.
  apply sortedClassNames_unique.
  - repeat constructor; unfold cmp_le; vm_compute; discriminate.
  - vm_compute. apply perm_swap.
Defined.


Definition stats_of_pending : list class_stat :=
  map (stat_of_bucket rows_with_pending) (sortedClassNames (group_spec rows_with_pending)).

Lemma stats_consistent_witness :
  totalStats stats_of_pending = mk_counts 3 1 2.
Proof.
  destruct (stats_consistent rows_with_pending (group_spec rows_with_pending) stats_of_pending)
    as [_ ->]; [vm_compute; reflexivity|vm_compute; reflexivity|reflexivity].
Defined.

(** The "Pending" row is counted as inactive but not shown by the
    "Inactive" filter: 2 = 1 + 1. *)
Lemma inactive_count_vs_filter_witness :
  inactive (totalStats stats_of_pending) =
  length (filteredSubjects (Some rows_with_pending) "" (Some false) "all") + 1 /\
  length (filteredSubjects (Some rows_with_pending) "" (Some false) "all") = 1.
Proof.
  split; [|reflexivity].
  rewrite (inactive_count_vs_filter rows_with_pending (group_spec rows_with_pending)
             stats_of_pending); [reflexivity|vm_compute; reflexivity|vm_compute; reflexivity].
Defined.
