(* ===== verification/SubjectPage.v ===== *)
(** * The SubjectList page: state, handlers and rendered view

    The state of the [SubjectList] component of
    src/src/pages/subject/SubjectList.jsx (its [useState] hooks, lines
    28-43) as a Record, each handler as a function of the state and of the
    outcome of its request, and the JSX (lines 255-506) as a [page_view]
    value computed from the state.  An asynchronous handler is split at
    its [await]: the part before runs on the click, the part after on the
    current state when the request settles, so other events may come in
    between. *)

From S2P Require Import Prelude JsString JsObject ArraySort SubjectCatalog.

(** ** Requests and notifications *)

(** What an awaited API call settles to: a response body, or a rejection. *)
Record api_response := mk_response {
  res_code : Z;
  res_msg : string;
  res_data_msg : option string   (* [res?.data?.msg] *)
}.

Inductive outcome (A : Type) :=
| Resolved (r : A)
| Rejected (message : string).
Arguments Resolved {A} r.
Arguments Rejected {A} message.

(** [a || b] on strings: the empty string is falsy. *)
Definition str_or (a : option string) (b : string) : string :=
  match a with Some m => if String.eqb m "" then b else m | None => b end.

Inductive toast :=
| ToastSuccess (msg : string)
| ToastError (msg : string).

(** ** The page state (SubjectList.jsx 28-43) *)

(** The create form [{class_subject, subject}]. *)
Record subject_form := mk_form { form_class_subject : string; form_subject : string }.

Definition empty_form : subject_form := mk_form "" "".

Record page_state := mk_page {
  subjectData : option (list subject_row);
  loading : bool;
  loadingClass : bool;
  openDialog : bool;
  classes : option (list string);   (* [undefined] after a body without [classes] *)
  isButtonDisabled : bool;
  searchTerm : string;
  filterActive : option bool;
  selectedClass : string;
  form : subject_form
}.

Definition initial_page : page_state :=
  mk_page None false false false (Some []) false "" None "all" empty_form.

(** Record updates, one field at a time, as the [setX] hooks do. *)
Definition set_subjectData (d : option (list subject_row)) (st : page_state) : page_state :=
  mk_page d (loading st) (loadingClass st) (openDialog st) (classes st)
    (isButtonDisabled st) (searchTerm st) (filterActive st) (selectedClass st) (form st).
Definition set_loading (b : bool) (st : page_state) : page_state :=
  mk_page (subjectData st) b (loadingClass st) (openDialog st) (classes st)
    (isButtonDisabled st) (searchTerm st) (filterActive st) (selectedClass st) (form st).
Definition set_loadingClass (b : bool) (st : page_state) : page_state :=
  mk_page (subjectData st) (loading st) b (openDialog st) (classes st)
    (isButtonDisabled st) (searchTerm st) (filterActive st) (selectedClass st) (form st).
Definition set_openDialog (b : bool) (st : page_state) : page_state :=
  mk_page (subjectData st) (loading st) (loadingClass st) b (classes st)
    (isButtonDisabled st) (searchTerm st) (filterActive st) (selectedClass st) (form st).
Definition set_classes (c : option (list string)) (st : page_state) : page_state :=
  mk_page (subjectData st) (loading st) (loadingClass st) (openDialog st) c
    (isButtonDisabled st) (searchTerm st) (filterActive st) (selectedClass st) (form st).
Definition set_isButtonDisabled (b : bool) (st : page_state) : page_state :=
  mk_page (subjectData st) (loading st) (loadingClass st) (openDialog st) (classes st)
    b (searchTerm st) (filterActive st) (selectedClass st) (form st).
Definition set_searchTerm (t : string) (st : page_state) : page_state :=
  mk_page (subjectData st) (loading st) (loadingClass st) (openDialog st) (classes st)
    (isButtonDisabled st) t (filterActive st) (selectedClass st) (form st).
Definition set_filterActive (f : option bool) (st : page_state) : page_state :=
  mk_page (subjectData st) (loading st) (loadingClass st) (openDialog st) (classes st)
    (isButtonDisabled st) (searchTerm st) f (selectedClass st) (form st).
Definition set_selectedClass (c : string) (st : page_state) : page_state :=
  mk_page (subjectData st) (loading st) (loadingClass st) (openDialog st) (classes st)
    (isButtonDisabled st) (searchTerm st) (filterActive st) c (form st).
Definition set_form (f : subject_form) (st : page_state) : page_state :=
  mk_page (subjectData st) (loading st) (loadingClass st) (openDialog st) (classes st)
    (isButtonDisabled st) (searchTerm st) (filterActive st) (selectedClass st) f.

(** ** Loading (SubjectList.jsx 44-65) *)

(** [fetchSubjectData] before its [await]. *)
Definition fetchSubjectData_start (st : page_state) : page_state := set_loading true st.

(** After [await FETCH_SUBJECT_LIST]: [subjectlist.subject] may be absent. *)
Definition fetchSubjectData_done (subjectlist : option (list subject_row)) (st : page_state)
  : page_state :=
  set_loading false (set_subjectData subjectlist st).

Definition fetchClassData_start (st : page_state) : page_state := set_loadingClass true st.

(** After [await FETCH_CLASS_LIST]: [setClasses(classslist.classes)]
    stores [undefined] when the body has no [classes]. *)
Definition fetchClassData_done (classeslist : option (list string)) (st : page_state) : page_state :=
  set_loadingClass false (set_classes classeslist st).

Definition handleOpenDialog (st : page_state) : page_state :=
  fetchClassData_start (set_openDialog true st).

Definition handleCloseDialog (st : page_state) : page_state := set_openDialog false st.

(** [onInputChange]: [{...subject, [e.target.name]: e.target.value}] for the
    two named controls of the form. *)
Definition onInputChange (name value : string) (st : page_state) : page_state :=
  if String.eqb name "class_subject" then set_form (mk_form value (form_subject (form st))) st
  else if String.eqb name "subject" then set_form (mk_form (form_class_subject (form st)) value) st
  else st.

(** ** [toggleStatus] (SubjectList.jsx 77-100) *)

Definition next_status (currentStatus : string) : string :=
  if String.eqb currentStatus "Active" then "Inactive" else "Active".

(** [prev.map(item => item.id === id ? {...item, subject_status: status} : item)]. *)
Definition toggle_rows (id0 : Z) (status : string) (rows : list subject_row) : list subject_row :=
  map (fun item => if Z.eqb (id item) id0
                   then mk_subject (id item) (class_subject item) (subject item) status
                   else item) rows.

(** After [await UPDATE_SUBJECT(id, status)]; the click itself changes no
    state.  [error.res] is never set on a rejection, so the catch always
    shows its fallback text. *)
Definition toggleStatus_done (id0 : Z) (currentStatus : string)
    (o : outcome api_response) (st : page_state) : js_result (page_state * list toast) :=
  let status := next_status currentStatus in
  match o with
  | Resolved res =>
      if Z.eqb (res_code res) 200 then
        match subjectData st with
        | Some rows => Ok (set_subjectData (Some (toggle_rows id0 status rows)) st,
                           [ToastSuccess (res_msg res)])
        | None => Throw (TypeError "Cannot read properties of null (reading 'map')")
        end
      else Ok (st, [ToastError (str_or (res_data_msg res) "Unexpected server response")])
  | Rejected _ => Ok (st, [ToastError "Failed to update status. Please try again."])
  end.

(** ** [handleSubmit] (SubjectList.jsx 102-143) *)

(** [form.checkValidity()]: both controls carry [required]. *)
Definition form_valid (f : subject_form) : bool :=
  negb (String.eqb (form_class_subject f) "") && negb (String.eqb (form_subject f) "").

(** Up to [await CREATE_SUBJECT]: the boolean says whether the request is
    sent.  Both controls are [required] and the form has no [noValidate],
    so in a browser the submit event only fires on a valid form and the
    invalid branch (lines 106-110) is not reached from the page. *)
Definition handleSubmit_start (st : page_state) : page_state * list toast * bool :=
  if form_valid (form st) then (set_isButtonDisabled true st, [], true)
  else (set_isButtonDisabled false st, [ToastError "Please fill all required fields"], false).

(** After [await CREATE_SUBJECT]: on success the dialog closes and the
    handler awaits [STUDENT_LIST] (the boolean); otherwise the error is
    caught and [finally] re-enables the button. *)
Definition handleSubmit_created (o : outcome (option api_response)) (st : page_state)
  : page_state * list toast * bool :=
  match o with
  | Resolved (Some response) =>
      if Z.eqb (res_code response) 200
      then (set_openDialog false st, [ToastSuccess (res_msg response)], true)
      else (set_isButtonDisabled false st,
            [ToastError (str_or (Some (str_or (Some (res_msg response))
                                          "Unexpected response from server"))
                                "Failed to create subject. Please try again.")], false)
  | Resolved None =>
      (set_isButtonDisabled false st, [ToastError "Unexpected response from server"], false)
  | Rejected message =>
      (set_isButtonDisabled false st,
       [ToastError (str_or (Some message) "Failed to create subject. Please try again.")], false)
  end.

(** After [await STUDENT_LIST]: [subjectlist.subject] replaces the rows,
    the form is reset, and [finally] re-enables the button. *)
Definition handleSubmit_listed (o : outcome (option (list subject_row))) (st : page_state)
  : page_state * list toast :=
  match o with
  | Resolved subjectlist =>
      (set_isButtonDisabled false (set_form empty_form (set_subjectData subjectlist st)), [])
  | Rejected message =>
      (set_isButtonDisabled false st,
       [ToastError (str_or (Some message) "Failed to create subject. Please try again.")])
  end.

(** ** Selectors (SubjectList.jsx 279, 292-300, 337, 350) *)

(** The status filter button: null -> true -> false -> null. *)
Definition cycle_filter (f : option bool) : option bool :=
  match f with None => Some true | Some true => Some false | Some false => None end.

Definition onFilterClick (st : page_state) : page_state :=
  set_filterActive (cycle_filter (filterActive st)) st.

Definition onSearchChange (value : string) (st : page_state) : page_state :=
  set_searchTerm value st.

Definition onClassClick (className : string) (st : page_state) : page_state :=
  set_selectedClass className st.

(** ** The rendered page (SubjectList.jsx 255-503) *)

(** A subject card: [key], class, name, and whether the status bar and the
    switch show "Active". *)
Record card_view := mk_card {
  card_key : Z; card_class : string; card_subject : string; card_active : bool
}.

Inductive body_view :=
| BodyLoader                          (* [<LoaderComponent />] *)
| BodyEmpty                           (* "No subjects found matching your criteria." *)
| BodyCards (cards : list card_view).

Record dialog_view := mk_dialog {
  dialog_options : list string;       (* the class [<option>]s after "Select Class" *)
  dialog_class : string; dialog_subject : string;
  submit_label : string; submit_disabled : bool
}.

Record page_view := mk_view {
  header_count : option nat;          (* "{filteredSubjects.length} Subjects" unless loading *)
  search_value : string;
  filter_label : string;
  pills : list (string * bool);       (* label, highlighted *)
  body : body_view;
  dialog : option dialog_view         (* [Dialog open={openDialog}] *)
}.

Definition filter_label_of (f : option bool) : string :=
  match f with None => "All" | Some true => "Active" | Some false => "Inactive" end.

Definition card_of (s : subject_row) : card_view :=
  mk_card (id s) (class_subject s) (subject s) (String.eqb (subject_status s) "Active").

Definition pills_of (selected : string) (names : list string) : list (string * bool) :=
  ("All Classes", String.eqb selected "all") ::
  map (fun className => (className, String.eqb selected className)) names.

Definition dialog_of (cs : list string) (st : page_state) : option dialog_view :=
  if openDialog st then
    Some (mk_dialog cs (form_class_subject (form st)) (form_subject (form st))
            (if isButtonDisabled st then "Adding..." else "Add Subject") (isButtonDisabled st))
  else None.

Section Render.
Context `{Collator}.

(** One render: the memos of lines 145-249 run first (and may throw),
    then the JSX is built from them.  JSX children are evaluated eagerly,
    so [classes.map] (line 461) runs on every render, the dialog open or
    not, and throws when [classes] is [undefined]. *)
Definition render (st : page_state) : js_result page_view :=
  js_bind (groupedSubjects (subjectData st)) (fun grouped =>
  let names := sortedClassNames grouped in
  let filtered := filteredSubjects (subjectData st) (searchTerm st) (filterActive st)
                    (selectedClass st) in
  js_bind (classStats (subjectData st) grouped names) (fun _ =>
  js_bind ((classes st) ?? TypeError "Cannot read properties of undefined (reading 'map')")%js
    (fun cs =>
  Ok (mk_view
        (if loading st then None else Some (length filtered))
        (searchTerm st) (filter_label_of (filterActive st))
        (pills_of (selectedClass st) names)
        (if loading st then BodyLoader
         else match filtered with [] => BodyEmpty | _ => BodyCards (map card_of filtered) end)
        (dialog_of cs st))))).
End Render.

(** ** Lemmas *)

Lemma set_subjectData_same st : set_subjectData (subjectData st) st = st.
Proof. by destruct st. Qed.

Lemma toggle_rows_absent id0 s rows :
  (forall r, r ∈ rows -> id r <> id0) -> toggle_rows id0 s rows = rows.
Proof.
  intros Hr. unfold toggle_rows. rewrite <- (map_id rows) at 2. apply map_ext_in.
  intros r Hin%list_elem_of_In. destruct (Z.eqb_spec (id r) id0); [|done].
  exfalso. by eapply Hr.
Qed.

Lemma toggle_rows_twice id0 s s' rows :
  (forall r, r ∈ rows -> id r = id0 -> subject_status r = s) ->
  toggle_rows id0 s (toggle_rows id0 s' rows) = rows.
Proof.
  intros Hr. unfold toggle_rows. rewrite map_map. rewrite <- (map_id rows) at 2.
  apply map_ext_in. intros [i c n st] Hin%list_elem_of_In. simpl.
  destruct (Z.eqb_spec i id0) as [->|]; simpl; [|by destruct (Z.eqb_spec i id0)].
  rewrite Z.eqb_refl. f_equal. symmetry. by apply (Hr (mk_subject id0 c n st)).
Qed.

Lemma next_status_twice s : s = "Active" \/ s = "Inactive" -> next_status (next_status s) = s.
Proof. by intros [-> | ->]. Qed.

(** ** Theorems *)

(** C13: A status update acknowledged for an id that no loaded row has changes
    nothing, yet the success toast is shown: no "not found" is reported. *)
Theorem toggleStatus_unknown_id id0 cur res st rows :
  subjectData st = Some rows -> (forall r, r ∈ rows -> id r <> id0) -> res_code res = 200%Z ->
  toggleStatus_done id0 cur (Resolved res) st = Ok (st, [ToastSuccess (res_msg res)]).
Proof.
  intros Hd Hr Hc. unfold toggleStatus_done. rewrite Hc, Z.eqb_refl, Hd.
  rewrite toggle_rows_absent by done. by rewrite <- Hd, set_subjectData_same.
Qed.

(** C11: Toggling a row twice from its card (each click passes the status the
    card shows) restores the rows when the status was "Active" or
    "Inactive". *)
Theorem toggleStatus_twice id0 s res1 res2 st rows :
  subjectData st = Some rows ->
  (forall r, r ∈ rows -> id r = id0 -> subject_status r = s) ->
  s = "Active" \/ s = "Inactive" ->
  res_code res1 = 200%Z -> res_code res2 = 200%Z ->
  js_bind (toggleStatus_done id0 s (Resolved res1) st)
    (fun '(st1, _) => toggleStatus_done id0 (next_status s) (Resolved res2) st1) =
  Ok (st, [ToastSuccess (res_msg res2)]).
Proof.
  intros Hd Hr Hs Hc1 Hc2. unfold toggleStatus_done.
  rewrite Hc1, Z.eqb_refl, Hd. simpl. rewrite Hc2, Z.eqb_refl. simpl.
  rewrite next_status_twice by done. rewrite toggle_rows_twice by done.
  destruct st; simpl in *; by subst.
Qed.

(** C23: A refused or failed update leaves the state as it was. *)
Theorem toggleStatus_failure id0 cur o st :
  match o with Resolved res => res_code res <> 200%Z | Rejected _ => True end ->
  exists msg, toggleStatus_done id0 cur o st = Ok (st, [ToastError msg]).
Proof.
  destruct o as [res|m]; simpl; intros Hc; [|eauto].
  rewrite (proj2 (Z.eqb_neq _ _) Hc). eauto.
Qed.

(** The status filter button cycles with period three: each click changes
    the filter and the label, three clicks restore the state. *)
Theorem onFilterClick_cycle st :
  onFilterClick (onFilterClick (onFilterClick st)) = st /\
  filterActive (onFilterClick st) <> filterActive st /\
  filter_label_of (filterActive (onFilterClick st)) <> filter_label_of (filterActive st).
Proof. destruct st as [? ? ? ? ? ? ? [[|]|] ? ?]; repeat split; done. Qed.

(** [handleSubmit] run to completion with no other event in between: the
    steps composed in the order of the code's awaits. *)
Definition handleSubmit_run (st : page_state) (created : outcome (option api_response))
    (listed : outcome (option (list subject_row))) : page_state * list toast :=
  let '(st1, t1, sent) := handleSubmit_start st in
  if sent then
    let '(st2, t2, awaiting) := handleSubmit_created created st1 in
    if awaiting then let '(st3, t3) := handleSubmit_listed listed st2 in (st3, t1 ++ t2 ++ t3)
    else (st2, t1 ++ t2)
  else (st1, t1).

(** C16: Whatever the requests do, the submit button ends enabled. *)
Theorem handleSubmit_button_reenabled st created listed :
  isButtonDisabled (fst (handleSubmit_run st created listed)) = false.
Proof.
  unfold handleSubmit_run, handleSubmit_start.
  destruct (form_valid (form st)); [|done].
  destruct created as [[r|]|m]; simpl; [|done|done].
  destruct (Z.eqb (res_code r) 200); simpl; [|done].
  by destruct listed.
Qed.

(** C17: After a successful creation the rows shown are replaced by the
    [subject] field of the [STUDENT_LIST] response, not refetched with
    [FETCH_SUBJECT_LIST]; the dialog is closed and the form reset. *)
Theorem handleSubmit_success st r subjectlist :
  form_valid (form st) = true -> res_code r = 200%Z ->
  handleSubmit_run st (Resolved (Some r)) (Resolved subjectlist) =
  (set_isButtonDisabled false (set_form empty_form (set_subjectData subjectlist
     (set_openDialog false (set_isButtonDisabled true st)))), [ToastSuccess (res_msg r)]).
Proof.
  intros Hv Hc. unfold handleSubmit_run, handleSubmit_start. rewrite Hv. simpl.
  by rewrite Hc, Z.eqb_refl.
Qed.


Section RenderTheorems.
Context `{Collator}.

(** A render that succeeds had no class named like a prototype property. *)
Lemma render_Ok_not_proto st rows v :
  subjectData st = Some rows -> render st = Ok v -> Forall not_proto rows.
Proof.
  intros Hd Hv. unfold render in Hv. rewrite Hd in Hv. apply Forall_forall. intros s Hs Hp.
  pose proof (group_reduce_throws [] rows s (Forall_nil_2 _) Hs Hp) as E.
  change (groupedSubjects (Some rows) = Throw push_error) in E. by rewrite E in Hv.
Qed.

(** C18: With rows loaded, the page renders exactly when no loaded class is
    named like an [Object.prototype] property and [classes] is not
    [undefined]. *)
Theorem render_ok_iff st rows :
  subjectData st = Some rows ->
  (exists v, render st = Ok v) <-> Forall not_proto rows /\ is_Some (classes st).
Proof.
  intros Hd. split.
  - intros [v Hv]. pose proof (render_Ok_not_proto st rows v Hd Hv) as Hrows. split; [done|].
    unfold render in Hv. rewrite Hd, groupedSubjects_Ok in Hv by done. cbn [js_bind] in Hv.
    rewrite classStats_spec in Hv by done. cbn [js_bind] in Hv.
    destruct (classes st); [by eexists|done].
  - intros [Hrows [cs Hc]]. unfold render. rewrite Hd, groupedSubjects_Ok by done. cbn [js_bind].
    rewrite classStats_spec by done. cbn [js_bind]. rewrite Hc. simpl. eauto.
Qed.

(** C19: What a successful render shows: the count and the cards of
    [filteredSubjects] (or the loader), one "All Classes" pill then one
    pill per class of [sortedClassNames]. *)
Theorem render_view st rows v :
  subjectData st = Some rows -> render st = Ok v ->
  let filtered := filteredSubjects (Some rows) (searchTerm st) (filterActive st) (selectedClass st) in
  header_count v = (if loading st then None else Some (length filtered)) /\
  map fst (pills v) = "All Classes" :: sortedClassNames (group_spec rows) /\
  body v = (if loading st then BodyLoader else
            match filtered with [] => BodyEmpty | _ => BodyCards (map card_of filtered) end).
Proof.
  intros Hd Hv. pose proof (render_Ok_not_proto st rows v Hd Hv) as Hrows.
  unfold render in Hv. rewrite Hd, groupedSubjects_Ok in Hv by done. cbn [js_bind] in Hv.
  rewrite classStats_spec in Hv by done. cbn [js_bind] in Hv.
  destruct (classes st); [|done]. invc Hv. simpl.
  repeat split. by rewrite map_map, map_id.
Qed.
End RenderTheorems.

(** C24: A class named "all" collides with the sentinel of [selectedClass]:
    clicking its pill highlights it together with "All Classes" and shows
    the rows of every class. *)
Theorem class_named_all_pill st rows names :
  subjectData st = Some rows -> searchTerm st = "" -> filterActive st = None ->
  "all" ∈ names ->
  let st' := onClassClick "all" st in
  ("All Classes", true) ∈ pills_of (selectedClass st') names /\
  ("all", true) ∈ pills_of (selectedClass st') names /\
  filteredSubjects (subjectData st') (searchTerm st') (filterActive st') (selectedClass st') = rows.
Proof.
  intros Hd Hs Hf Hall. simpl. rewrite Hd, Hs, Hf. split; [left|split].
  - right. apply list_elem_of_fmap. exists "all". done.
  - apply filteredSubjects_all.
Qed.

(** ** Witnesses *)

Definition page_loaded : page_state :=
  fetchSubjectData_done (Some rows_three_classes) (fetchSubjectData_start initial_page).

Definition ok_response : api_response := mk_response 200 "Status updated" None.

Lemma toggleStatus_unknown_id_witness :
  toggleStatus_done 99 "Active" (Resolved ok_response) page_loaded =
  Ok (page_loaded, [ToastSuccess (res_msg ok_response)]).
Proof.
  apply (toggleStatus_unknown_id _ _ _ _ rows_three_classes); [reflexivity| |reflexivity].
  intros r Hr. repeat (apply elem_of_cons in Hr as [->|Hr]; [discriminate|]).
  by apply not_elem_of_nil in Hr.
Defined.

Lemma toggleStatus_twice_witness :
  js_bind (toggleStatus_done 2 "Active" (Resolved ok_response) page_loaded)
    (fun '(st1, _) => toggleStatus_done 2 (next_status "Active") (Resolved ok_response) st1) =
  Ok (page_loaded, [ToastSuccess (res_msg ok_response)]).
Proof.
  apply (toggleStatus_twice _ _ _ _ _ rows_three_classes); [reflexivity| |by left|reflexivity|reflexivity].
  intros r Hr Hid. repeat (apply elem_of_cons in Hr as [->|Hr]; [simpl in Hid; try discriminate; reflexivity|]).
  by apply not_elem_of_nil in Hr.
Defined.

(** Starting from "Pending", two toggles end at "Inactive": the round trip
    needs a two-valued status. *)
Example toggleStatus_twice_pending :
  toggle_rows 1 (next_status (next_status "Pending")) (toggle_rows 1 (next_status "Pending")
    [mk_subject 1 "I" "Math" "Pending"]) = [mk_subject 1 "I" "Math" "Inactive"].
Proof. reflexivity. Qed.

Lemma toggleStatus_failure_witness :
  exists msg, toggleStatus_done 2 "Active" (Resolved (mk_response 500 "" None)) page_loaded =
              Ok (page_loaded, [ToastError msg]).
Proof. apply toggleStatus_failure. simpl. lia. Defined.

Lemma handleSubmit_success_witness :
  subjectData (fst (handleSubmit_run (set_form (mk_form "I" "Math") page_loaded)
    (Resolved (Some ok_response)) (Resolved None))) = None.
Proof. rewrite handleSubmit_success; reflexivity. Defined.


Lemma render_ok_iff_witness : exists v, render page_loaded = Ok v.
Proof.
  apply (render_ok_iff page_loaded rows_three_classes); [reflexivity|].
  split; [apply not_proto_three|by eexists].
Defined.

Lemma render_view_witness :
  header_count (match render page_loaded with Ok v => v | Throw _ => mk_view None "" "" [] BodyLoader None end)
  = Some 4.
Proof.
  destruct (render page_loaded) as [v|] eqn:E; [|discriminate].
  destruct (render_view page_loaded rows_three_classes v eq_refl E) as [-> _]. reflexivity.
Defined.

Lemma class_named_all_pill_witness :
  ("all", true) ∈ pills_of (selectedClass (onClassClick "all" page_loaded)) ["I"; "all"].
Proof.
  apply (class_named_all_pill page_loaded rows_three_classes ["I"; "all"]);
    [reflexivity|reflexivity|reflexivity|right; left].
Defined.
