(* ===== verification/Timetable.v ===== *)
(** * The class timetable of Timetable.jsx

    src/src/pages/timetable/Timetable.jsx: the page state (lines 13-22),
    [fetchTimetable] (64-94) split at its [await], [filterByClass]
    (107-109), the cell resolver [getSubjectForClassDayPeriod] (96-105),
    and the render (111-256) as a [tt_view]: the loader, the error text, or
    the class buttons and the weekday x period grid.  [tt_step] runs one
    event; [tt_run] a sequence of them.  [Index] states the indexed
    resolver the spec allows as an optimisation and proves it returns the
    first match, as the scan does.  The response's [teacherAssign] is taken
    to be present: a body without it, which would make [find] throw in
    the render, is not modelled. *)

From S2P Require Import Prelude.
From stdpp Require Import gmap.

(** ** Data *)

(** A row of [teacherAssign]. *)
Record assignment := mk_assignment {
  teachersub_class : string;
  teachersub_on : string;
  teachersub_period : string;
  teachersub_subject : string
}.

(** The fields of the [FETCH_CLASS_TIME_TABLE] response the page reads;
    a missing [shool_period] or [classes] is [None]. *)
Record tt_response := mk_tt_response {
  shool_period : option (list string);   (* [period.school_period] of each entry *)
  r_classes : option (list string);      (* [classObj.classes] of each entry *)
  r_teacherAssign : list assignment
}.

Record timetable_data := mk_tt_data {
  tt_classes : list string;
  teacherAssign : list assignment;
  periods : list string
}.

Record tt_state := mk_tt {
  timetableData : timetable_data;
  loading : bool;
  error : option string;
  activeClass : option string;
  selectedYear : string
}.

Definition days : list string :=
  ["Monday"; "Tuesday"; "Wednesday"; "Thursday"; "Friday"; "Saturday"].

Definition initial_tt (year : string) : tt_state :=
  mk_tt (mk_tt_data [] [] []) true None None year.

(** [!activeClass]: [null] and [""] are falsy. *)
Definition class_truthy (c : option string) : bool :=
  match c with Some s => negb (String.eqb s "") | None => false end.

(** ** [getSubjectForClassDayPeriod] (lines 96-105) *)

Definition matches_cell (classValue day period : string) (item : assignment) : bool :=
  String.eqb (teachersub_class item) classValue && String.eqb (teachersub_on item) day &&
  String.eqb (teachersub_period item) period.

Definition getSubjectForClassDayPeriod (teacherAssign : list assignment)
    (classValue day period : string) : string :=
  match List.find (matches_cell classValue day period) teacherAssign with
  | Some assignment => teachersub_subject assignment
  | None => ""
  end.

(** ** [fetchTimetable] (lines 64-94) *)

Definition fetch_error_msg : string := "Failed to fetch timetable data".

(** Before [await FETCH_CLASS_TIME_TABLE]. *)
Definition fetchTimetable_start (st : tt_state) : tt_state :=
  mk_tt (timetableData st) true (error st) (activeClass st) (selectedYear st).

(** After the await.  [captured] is [activeClass] as the effect's closure
    saw it.  A missing [shool_period] throws in [.map], a missing [classes]
    throws at [classes.length] after the data is stored; both are caught
    and set [error]; [finally] clears [loading].  Nothing ever resets
    [error]. *)
Definition fetchTimetable_done (captured : option string) (o : option tt_response)
    (st : tt_state) : tt_state :=
  match o with
  | Some response =>
      match shool_period response with
      | None => mk_tt (timetableData st) false (Some fetch_error_msg) (activeClass st) (selectedYear st)
      | Some periods =>
          match r_classes response with
          | None =>
              mk_tt (mk_tt_data [] (r_teacherAssign response) periods) false
                (Some fetch_error_msg) (activeClass st) (selectedYear st)
          | Some classes =>
              let active := match classes with
                            | c :: _ => if class_truthy captured then activeClass st else Some c
                            | [] => activeClass st
                            end in
              mk_tt (mk_tt_data classes (r_teacherAssign response) periods) false
                (error st) active (selectedYear st)
          end
      end
  | None => mk_tt (timetableData st) false (Some fetch_error_msg) (activeClass st) (selectedYear st)
  end.

(** [filterByClass]: a click on a class button. *)
Definition filterByClass (className : string) (st : tt_state) : tt_state :=
  mk_tt (timetableData st) (loading st) (error st) (Some className) (selectedYear st).

(** The year selector of the layout context changes [selectedYear]; the
    effect then starts a fetch. *)
Definition setSelectedYear (year : string) (st : tt_state) : tt_state :=
  fetchTimetable_start (mk_tt (timetableData st) (loading st) (error st) (activeClass st) year).

(** ** The render (lines 111-256) *)

Inductive tt_view :=
| ViewLoading                                    (* lines 111-118 *)
| ViewError (msg : string)                       (* lines 120-127 *)
| ViewTable (title_year : string)
    (buttons : list (string * bool))             (* class buttons, highlighted *)
    (heading : option string)                    (* "Class:{activeClass}" *)
    (min_width : nat)                            (* [totalWidth] *)
    (header : list string)                       (* the period columns *)
    (grid : list (string * list string)).        (* one row per day *)

(** [totalWidth]: the day column plus one cell per period, in pixels. *)
Definition totalWidth (periods : list string) : nat := 100 + length periods * 80.

(** The cell of [day] and [period]: [activeClass ? getSubject...(...) : ""]. *)
Definition cell (st : tt_state) (day period : string) : string :=
  match activeClass st with
  | Some c => if class_truthy (Some c)
              then getSubjectForClassDayPeriod (teacherAssign (timetableData st)) c day period
              else ""
  | None => ""
  end.

Definition grid_of (st : tt_state) : list (string * list string) :=
  map (fun day => (day, map (cell st day) (periods (timetableData st)))) days.

Definition tt_render (st : tt_state) : tt_view :=
  if loading st then ViewLoading
  else match error st with
       | Some e => ViewError e
       | None =>
           let classList := tt_classes (timetableData st) in
           ViewTable (selectedYear st)
             (map (fun className => (className, bool_decide (activeClass st = Some className))) classList)
             (activeClass st) (totalWidth (periods (timetableData st)))
             (periods (timetableData st)) (grid_of st)
       end.

(** ** Events *)

Inductive tt_event :=
| EvYear (year : string)                             (* the context's year changes *)
| EvFetched (captured : option string) (o : option tt_response)
| EvClick (className : string).                     (* a class button *)

(** The class buttons exist only while the table is shown. *)
Definition tt_step (st : tt_state) (ev : tt_event) : tt_state :=
  match ev with
  | EvYear y => setSelectedYear y st
  | EvFetched captured o => fetchTimetable_done captured o st
  | EvClick c => match tt_render st with ViewTable _ _ _ _ _ _ => filterByClass c st | _ => st end
  end.

Definition tt_run (st : tt_state) (evs : list tt_event) : tt_state := fold_left tt_step evs st.

(** ** Lemmas *)

Lemma find_first {A} (f : A -> bool) (pre post : list A) (a : A) :
  Forall (fun x => f x = false) pre -> f a = true -> List.find f (pre ++ a :: post) = Some a.
Proof. induction 1 as [|x pre Hx _ IH]; simpl; intros Ha; [by rewrite Ha|by rewrite Hx, IH]. Qed.

(** [matches_cell] compares all three fields. *)
Lemma matches_cell_iff c d p x :
  matches_cell c d p x = true <->
  teachersub_class x = c /\ teachersub_on x = d /\ teachersub_period x = p.
Proof. unfold matches_cell. rewrite !andb_true_iff, !String.eqb_eq. tauto. Qed.

Lemma matches_cell_false c d p x :
  ~ (teachersub_class x = c /\ teachersub_on x = d /\ teachersub_period x = p) ->
  matches_cell c d p x = false.
Proof. rewrite <- matches_cell_iff. by destruct (matches_cell c d p x). Qed.

Lemma find_none {A} (f : A -> bool) (l : list A) :
  Forall (fun x => f x = false) l -> List.find f l = None.
Proof. induction 1 as [|x l Hx _ IH]; simpl; [done|by rewrite Hx]. Qed.

Lemma tt_step_error st ev : is_Some (error st) -> is_Some (error (tt_step st ev)).
Proof.
  intros He. destruct ev as [y|c [r|]|c]; simpl; try done.
  - destruct (shool_period r), (r_classes r); simpl; done.
  - destruct (tt_render st); done.
Qed.

Lemma tt_run_error st evs : is_Some (error st) -> is_Some (error (tt_run st evs)).
Proof.
  unfold tt_run. revert st. induction evs as [|ev evs IH]; intros st He; simpl; [done|].
  apply IH, tt_step_error, He.
Qed.

(** ** Theorems *)

(** C5: The cell of a class, day and period shows the subject of the first
    assignment in [teacherAssign] whose class, day and period are all
    equal to them: earlier assignments that differ in any of the three
    fields, and later duplicates, are ignored. *)
Theorem getSubject_first_match pre a post c d p :
  Forall (fun x => ~ (teachersub_class x = c /\ teachersub_on x = d /\ teachersub_period x = p)) pre ->
  teachersub_class a = c -> teachersub_on a = d -> teachersub_period a = p ->
  getSubjectForClassDayPeriod (pre ++ a :: post) c d p = teachersub_subject a.
Proof.
  intros Hpre Hc Hd Hp. unfold getSubjectForClassDayPeriod. rewrite find_first; [done| |].
  - eapply Forall_impl; [exact Hpre|]. intros x. apply matches_cell_false.
  - by apply matches_cell_iff.
Qed.

(** C21: When no assignment has the class, day and period all three, the
    cell is the empty string. *)
Theorem getSubject_absent l c d p :
  (forall x, x ∈ l -> ~ (teachersub_class x = c /\ teachersub_on x = d /\ teachersub_period x = p)) ->
  getSubjectForClassDayPeriod l c d p = "".
Proof.
  intros Hl. unfold getSubjectForClassDayPeriod. rewrite find_none; [done|].
  apply Forall_forall. intros x Hx. by apply matches_cell_false, Hl.
Qed.

(** C6: The grid has one row per weekday, Monday to Saturday, and one cell per
    period in each row; the cell is the resolved subject of the active
    class, or empty when no class is active. *)
Theorem grid_of_spec st i j day period :
  days !! i = Some day -> periods (timetableData st) !! j = Some period ->
  length (grid_of st) = 6 /\
  Forall (fun row => length (snd row) = length (periods (timetableData st))) (grid_of st) /\
  exists row, grid_of st !! i = Some (day, row) /\
    row !! j = Some (if class_truthy (activeClass st)
                     then getSubjectForClassDayPeriod (teacherAssign (timetableData st))
                            (default "" (activeClass st)) day period
                     else "").
Proof.
  intros Hi Hj. unfold grid_of. split; [by rewrite length_map|split].
  - apply Forall_forall. intros row (d & -> & _)%list_elem_of_fmap. simpl. by rewrite length_map.
  - eexists. rewrite list_lookup_fmap, Hi. split; [done|].
    rewrite list_lookup_fmap, Hj. simpl. f_equal. unfold cell.
    by destruct (activeClass st) as [c|].
Qed.

(** C14: Once a fetch has failed, the page shows the loader or the error for
    ever: [error] is never reset, even by a successful fetch for another
    year. *)
Theorem error_sticky st evs :
  is_Some (error st) ->
  tt_render (tt_run st evs) = ViewLoading \/ exists e, tt_render (tt_run st evs) = ViewError e.
Proof.
  intros He. destruct (tt_run_error st evs He) as [e Hr].
  unfold tt_render. rewrite Hr. destruct (loading (tt_run st evs)); eauto.
Qed.

(** C15: A fetch that succeeds selects the first class when none is selected,
    and keeps a selection that exists. *)
Theorem fetch_default_class captured r periods c classes st :
  shool_period r = Some periods -> r_classes r = Some (c :: classes) ->
  activeClass (fetchTimetable_done captured (Some r) st) =
  if class_truthy captured then activeClass st else Some c.
Proof. intros Hp Hc. simpl. by rewrite Hp, Hc. Qed.

(** C25: After a change of year whose fetch succeeds with a class list that
    does not contain the selected class, the page renders the new year's
    table for the old class: its heading names that class, no class
    button is highlighted, and every cell resolves that class in the new
    assignments. *)
Theorem stale_class_after_year st y r periods classes c :
  activeClass st = Some c -> class_truthy (Some c) = true -> c ∉ classes -> error st = None ->
  shool_period r = Some periods -> r_classes r = Some classes ->
  tt_render (fetchTimetable_done (activeClass st) (Some r) (setSelectedYear y st)) =
  ViewTable y (map (fun k => (k, false)) classes) (Some c) (totalWidth periods) periods
    (map (fun day => (day, map (getSubjectForClassDayPeriod (r_teacherAssign r) c day) periods))
       days).
Proof.
  intros Ha Ht Hc He Hp Hr.
  assert (activeClass (fetchTimetable_done (activeClass st) (Some r) (setSelectedYear y st)) = Some c)
    as Ha'.
  { unfold fetchTimetable_done. rewrite Hp, Hr, Ha, Ht. destruct classes; simpl; by rewrite ?Ha. }
  revert Ha'. unfold tt_render, grid_of, cell, fetchTimetable_done. rewrite Hp, Hr. simpl.
  rewrite He. intros ->. simpl in Ht |- *. rewrite Ht. f_equal.
  apply map_ext_in. intros k Hk%list_elem_of_In. f_equal.
  apply bool_decide_eq_false. intros [= ->]. by apply Hc.
Qed.

(** ** An indexed resolver

    The spec allows replacing the scan by an index keyed by (class, day,
    period), built once per [teacherAssign], provided the first match
    still wins.  [build_index] inserts from the end of the list, so an
    earlier assignment overwrites a later one with the same key. *)
Module Index.

Definition key (a : assignment) : string * string * string :=
  (teachersub_class a, teachersub_on a, teachersub_period a).

Definition build_index (l : list assignment) : gmap (string * string * string) string :=
  foldr (fun a m => <[key a := teachersub_subject a]> m) ∅ l.

Definition resolve (idx : gmap (string * string * string) string) (c d p : string) : string :=
  default "" (idx !! (c, d, p)).

Lemma matches_cell_key c d p a : matches_cell c d p a = true <-> key a = (c, d, p).
Proof.
  unfold matches_cell, key. rewrite !andb_true_iff, !String.eqb_eq.
  split; [intros [[-> ->] ->]|intros [= -> -> ->]]; auto.
Qed.

Lemma build_index_lookup l c d p :
  build_index l !! (c, d, p) = teachersub_subject <$> List.find (matches_cell c d p) l.
Proof.
  induction l as [|a l IH]; simpl; [apply lookup_empty|].
  destruct (matches_cell c d p a) eqn:E.
  - apply matches_cell_key in E. rewrite <- E. by rewrite lookup_insert_eq.
  - rewrite lookup_insert_ne; [done|]. intros Hk.
    apply matches_cell_key in Hk. congruence.
Qed.

(** C7: The indexed resolver answers every cell as the scan does. *)
Theorem resolve_build_index l c d p :
  resolve (build_index l) c d p = getSubjectForClassDayPeriod l c d p.
Proof.
  unfold resolve, getSubjectForClassDayPeriod. rewrite build_index_lookup.
  by destruct (List.find _ l).
Qed.

End Index.

(** ** Scenarios and witnesses *)

Definition assign_dup : list assignment :=
  [mk_assignment "I" "Monday" "P1" "Math"; mk_assignment "I" "Monday" "P1" "Science"].

(** Two assignments of class I, Monday, P1: the first, "Math", is shown. *)
Example duplicate_triple_scenario :
  getSubjectForClassDayPeriod assign_dup "I" "Monday" "P1" = "Math" /\
  Index.resolve (Index.build_index assign_dup) "I" "Monday" "P1" = "Math".
Proof. split; reflexivity. Qed.

Lemma getSubject_first_match_witness :
  getSubjectForClassDayPeriod ([mk_assignment "I" "Monday" "P2" "Art"] ++
    mk_assignment "I" "Monday" "P1" "Math" :: [mk_assignment "I" "Monday" "P1" "Science"])
    "I" "Monday" "P1" = "Math".
Proof.
  apply getSubject_first_match; [|reflexivity..].
  constructor; [intros (_ & _ & ?); discriminate|constructor].
Defined.

Lemma getSubject_absent_witness :
  getSubjectForClassDayPeriod [mk_assignment "I" "Monday" "P1" "Math"] "I" "Monday" "P2" = "".
Proof. apply getSubject_absent. intros x ->%list_elem_of_singleton (_ & _ & ?). discriminate. Defined.

Definition tt_loaded : tt_state :=
  fetchTimetable_done None
    (Some (mk_tt_response (Some ["P1"; "P2"]) (Some ["I"; "II"]) assign_dup))
    (initial_tt "2024-25").

Lemma grid_of_spec_witness :
  exists row, grid_of tt_loaded !! 0 = Some ("Monday", row) /\ row !! 0 = Some "Math".
Proof.
  destruct (grid_of_spec tt_loaded 0 0 "Monday" "P1" eq_refl eq_refl) as (_ & _ & row & H1 & H2).
  exists row. split; [done|]. rewrite H2. reflexivity.
Defined.

Lemma error_sticky_witness :
  let st := fetchTimetable_done None None (initial_tt "2024-25") in
  let st' := tt_run st [EvYear "2025-26";
                        EvFetched (activeClass st)
                          (Some (mk_tt_response (Some ["P1"]) (Some ["I"]) assign_dup))] in
  tt_render st' = ViewLoading \/ exists e, tt_render st' = ViewError e.
Proof. apply error_sticky. simpl. eauto. Defined.

Lemma fetch_default_class_witness :
  activeClass tt_loaded = Some "I".
Proof.
  unfold tt_loaded. rewrite (fetch_default_class None _ ["P1"; "P2"] "I" ["II"]); reflexivity.
Defined.

Lemma stale_class_after_year_witness :
  tt_render (fetchTimetable_done (activeClass tt_loaded)
     (Some (mk_tt_response (Some ["P1"]) (Some ["X"]) [])) (setSelectedYear "2025-26" tt_loaded)) =
  ViewTable "2025-26" [("X", false)] (Some "I") (totalWidth ["P1"]) ["P1"]
    (map (fun day => (day, map (getSubjectForClassDayPeriod [] "I" day) ["P1"])) days).
Proof.
  apply (stale_class_after_year tt_loaded "2025-26" (mk_tt_response (Some ["P1"]) (Some ["X"]) [])
           ["P1"] ["X"] "I"); [reflexivity|reflexivity| |reflexivity|reflexivity|reflexivity].
  apply (bool_decide_unpack _). vm_compute. reflexivity.
Defined.
