(* ===== verification/Handlers.v ===== *)
(** * The holiday and teacher-attendance list pages

    [Holiday]: src/src/pages/holiday/HolidayList.jsx: the list fetch, the
    table rows, the delete flow (the row's delete icon, lines 105-109, the
    confirmation dialog, 161-177, and [handleDelete], 48-67).
    [Attendance]: src/src/pages/teacher/teacherattendanceList/
    TeacherAttendanceList.jsx: [handleSubmit] (104-137) and [handleDelete]
    (138-161), whose promise chains have no [catch], so the state carries
    a ghost count of requests in flight that makes a rejection, which runs
    no code, visible in the model; the by-id fetch effect; the list fetch
    and the table.  moment's date formatting is kept abstract: a cell is
    blank or the formatted date of its ISO string. *)

From S2P Require Import Prelude SubjectPage.

(** ** The holiday list *)

(** The date columns of both tables (HolidayList.jsx 76-79,
    TeacherAttendanceList.jsx 180-183):
    [date ? moment(date).format("DD-MMM-YYYY") : ""]. *)
Inductive date_cell := DateBlank | DateFormatted (iso : string).

Definition date_cell_of (date : string) : date_cell :=
  if String.eqb date "" then DateBlank else DateFormatted date.

Module Holiday.

Record holiday_row := mk_holiday { id : Z; holiday_date : string; holiday_for : string }.

Record holiday_state := mk_holiday_state {
  holidayData : option (list holiday_row);
  loading : bool;
  deleteDialogOpen : bool;
  deleteId : option Z
}.

Definition initial : holiday_state := mk_holiday_state None false false None.

(** [fetchHolidayData] after its await: [response.data?.holidayList], or a
    caught error; [finally] clears [loading]. *)
Definition fetchHolidayData_done (o : outcome (option (list holiday_row))) (st : holiday_state)
  : holiday_state :=
  match o with
  | Resolved l => mk_holiday_state l false (deleteDialogOpen st) (deleteId st)
  | Rejected _ => mk_holiday_state (holidayData st) false (deleteDialogOpen st) (deleteId st)
  end.

(** The delete icon of a row: [setDeleteId(id); setDeleteDialogOpen(true)]. *)
Definition onDeleteClick (id0 : Z) (st : holiday_state) : holiday_state :=
  mk_holiday_state (holidayData st) (loading st) true (Some id0).

(** "Cancel" and the dialog's [handler]. *)
Definition onCancel (st : holiday_state) : holiday_state :=
  mk_holiday_state (holidayData st) (loading st) false (deleteId st).

(** [if (!deleteId) return;]: [null] and [0] are falsy.  The id the
    request is sent for, if any. *)
Definition handleDelete_start (st : holiday_state) : option Z :=
  match deleteId st with
  | Some i => if Z.eqb i 0 then None else Some i
  | None => None
  end.

(** After [await axios.delete]: remove the rows of the id on success; in
    every case [finally] closes the dialog and clears [deleteId]. *)
Definition handleDelete_done (id0 : Z) (o : outcome unit) (st : holiday_state)
  : js_result holiday_state :=
  let data := match o with
              | Resolved _ =>
                  match holidayData st with
                  | Some prev => Ok (Some (List.filter (fun item => negb (Z.eqb (id item) id0)) prev))
                  | None => Throw (TypeError "Cannot read properties of null (reading 'filter')")
                  end
              | Rejected _ => Ok (holidayData st)
              end in
  js_bind data (fun d => Ok (mk_holiday_state d (loading st) false None)).

(** Pressing "Delete" in the dialog and the request settling. *)
Definition confirmDelete (o : outcome unit) (st : holiday_state) : js_result holiday_state :=
  match handleDelete_start st with
  | Some id0 => handleDelete_done id0 o st
  | None => Ok st
  end.

(** [fetchHolidayData] before its await; the mount effect calls it.  The
    year in its URL is the constant "2024-25". *)
Definition fetchHolidayData_start (st : holiday_state) : holiday_state :=
  mk_holiday_state (holidayData st) true (deleteDialogOpen st) (deleteId st).

(** A table row: the date cell, [holiday_for], and the id of the edit
    link and of the delete icon. *)
Record holiday_row_view := mk_holiday_row_view {
  cell_date : date_cell; cell_for : string; action_id : Z
}.

Definition holiday_row_of (r : holiday_row) : holiday_row_view :=
  mk_holiday_row_view (date_cell_of (holiday_date r)) (holiday_for r) (id r).

(** [data: holidayData || []]. *)
Definition table_rows (st : holiday_state) : list holiday_row_view :=
  map holiday_row_of (default [] (holidayData st)).

(** *** Theorems *)

(** C26: Confirming the deletion of a non-zero id removes exactly the rows of
    that id, keeps the others in order, closes the dialog and clears the id. *)
Theorem confirmDelete_success st i rows :
  deleteId st = Some i -> i <> 0%Z -> holidayData st = Some rows ->
  exists rows', confirmDelete (Resolved tt) st = Ok (mk_holiday_state (Some rows') (loading st) false None) /\
    sublist rows' rows /\ (forall r, r ∈ rows' <-> r ∈ rows /\ id r <> i).
Proof.
  intros Hi Hnz Hd. unfold confirmDelete, handleDelete_start. rewrite Hi.
  rewrite (proj2 (Z.eqb_neq _ _) Hnz). unfold handleDelete_done. rewrite Hd. simpl.
  eexists. split; [reflexivity|]. split; [apply filter_sublist|].
  intros r. rewrite !list_elem_of_In, List.filter_In, negb_true_iff, Z.eqb_neq. done.
Qed.

(** C27: A failed deletion leaves the rows and also closes the dialog. *)
Theorem confirmDelete_failure st i msg :
  deleteId st = Some i -> i <> 0%Z ->
  confirmDelete (Rejected msg) st = Ok (mk_holiday_state (holidayData st) (loading st) false None).
Proof.
  intros Hi Hnz. unfold confirmDelete, handleDelete_start. rewrite Hi.
  by rewrite (proj2 (Z.eqb_neq _ _) Hnz).
Qed.

(** C28: The guard [!deleteId] also rejects the id 0: "Delete" then does
    nothing, the dialog stays open and the row stays. *)
Theorem confirmDelete_zero_id st o :
  deleteId st = Some 0%Z -> confirmDelete o st = Ok st.
Proof. intros Hi. unfold confirmDelete, handleDelete_start. by rewrite Hi. Qed.

End Holiday.

(** ** The teacher attendance list *)

Module Attendance.

Record att_state := mk_att {
  openDialog : bool;
  openDeleteDialog : bool;
  attendanceid : Z;
  teacherAttendance_date : string;
  isButtonDisabled : bool;
  refetches : nat;     (* calls of [fetchTeacherData] issued *)
  in_flight : nat      (* ghost: update/delete requests not yet settled *)
}.

(** [attendanceid] starts as [""]; ids are positive, so 0 stands for it. *)
Definition initial : att_state := mk_att false false 0 "" false 0 0.

Definition with_disabled (b : bool) (st : att_state) : att_state :=
  mk_att (openDialog st) (openDeleteDialog st) (attendanceid st) (teacherAttendance_date st)
    b (refetches st) (in_flight st).

Inductive request := Update | Delete.

(** [handleSubmit] up to the request: [checkValidity] (the date is
    [required]), then [setIsButtonDisabled(true)] and the PUT. *)
Definition handleSubmit_start (st : att_state) : att_state * list toast :=
  if String.eqb (teacherAttendance_date st) "" then
    (with_disabled false st, [ToastError "Fill all required fields"])
  else
    (mk_att (openDialog st) (openDeleteDialog st) (attendanceid st) (teacherAttendance_date st)
       true (refetches st) (S (in_flight st)), []).

(** [handleDelete] up to the request. *)
Definition handleDelete_start (st : att_state) : att_state :=
  mk_att (openDialog st) (openDeleteDialog st) (attendanceid st) (teacherAttendance_date st)
    true (refetches st) (S (in_flight st)).

(** The [.then] callback, or nothing at all on a rejection: there is no
    [.catch], so [setIsButtonDisabled(false)] does not run. *)
Definition settle (kind : request) (o : outcome api_response) (st : att_state)
  : att_state * list toast :=
  let pending := in_flight st - 1 in
  match o with
  | Rejected _ =>
      (mk_att (openDialog st) (openDeleteDialog st) (attendanceid st) (teacherAttendance_date st)
         (isButtonDisabled st) (refetches st) pending, [])
  | Resolved res =>
      if Z.eqb (res_code res) 200 then
        (mk_att (match kind with Update => false | Delete => openDialog st end)
           (match kind with Delete => false | Update => openDeleteDialog st end)
           (attendanceid st) "" false (S (refetches st)) pending, [ToastSuccess (res_msg res)])
      else
        (mk_att (openDialog st) (openDeleteDialog st) (attendanceid st) (teacherAttendance_date st)
           false (refetches st) pending,
         if Z.eqb (res_code res) 400 then [ToastError (res_msg res)] else [])
  end.

(** The effect on [attendanceid] (lines 68-93) once its GET settles: no
    request for a falsy id; the date of the response, or [""] (the
    [|| ""]); a body without [teacherAttendance] throws inside the [try]
    and is only logged. *)
Definition fetchAttendanceDataId_done (id0 : Z) (o : outcome (option (option string)))
  : option string :=
  if Z.eqb id0 0 then None
  else match o with
       | Resolved (Some d) => Some (str_or d "")
       | Resolved None | Rejected _ => None
       end.

Inductive att_event :=
| AOpenDelete (id0 : Z)         (* the row's delete button, lines 206-210 *)
| ACloseDelete                  (* the delete dialog's close and Cancel *)
| ACloseDialog                  (* the update dialog's close and Cancel *)
| AInput (date : string)        (* the date input of the update dialog *)
| AFetchedById (id0 : Z) (o : outcome (option (option string)))
                                (* the GET of the effect on [attendanceid] settles *)
| ASubmit                       (* the update form's submit button *)
| ADeleteConfirm                (* the delete dialog's Delete button *)
| ASettle (kind : request) (o : outcome api_response).

(** One event; a button marked [disabled={isButtonDisabled}] and the
    controls of a closed dialog cannot be used. *)
Definition att_step (st : att_state) (ev : att_event) : att_state :=
  match ev with
  | AOpenDelete i =>
      mk_att (openDialog st) true i (teacherAttendance_date st) (isButtonDisabled st)
        (refetches st) (in_flight st)
  | ACloseDelete =>
      mk_att (openDialog st) false (attendanceid st) (teacherAttendance_date st)
        (isButtonDisabled st) (refetches st) (in_flight st)
  | ACloseDialog =>
      mk_att false (openDeleteDialog st) (attendanceid st) (teacherAttendance_date st)
        (isButtonDisabled st) (refetches st) (in_flight st)
  | AInput d =>
      if openDialog st then
        mk_att (openDialog st) (openDeleteDialog st) (attendanceid st) d
          (isButtonDisabled st) (refetches st) (in_flight st)
      else st
  | AFetchedById i o =>
      match fetchAttendanceDataId_done i o with
      | Some d => mk_att (openDialog st) (openDeleteDialog st) (attendanceid st) d
                    (isButtonDisabled st) (refetches st) (in_flight st)
      | None => st
      end
  | ASubmit =>
      if openDialog st && negb (isButtonDisabled st) then fst (handleSubmit_start st) else st
  | ADeleteConfirm =>
      if openDeleteDialog st && negb (isButtonDisabled st) then handleDelete_start st else st
  | ASettle kind o => if Nat.ltb 0 (in_flight st) then fst (settle kind o st) else st
  end.

Definition att_run (st : att_state) (evs : list att_event) : att_state := fold_left att_step evs st.

(** *** The attendance list (lines 32-33, 44-66, 163-263) *)

(** A row of [response.data.teacherAttendance]. *)
Record att_row := mk_att_row {
  row_id : Z; teacher_name : string; teacher_mobile : string; row_date : string
}.

(** The list and its loading flag, apart from the dialogs' state. *)
Record list_state := mk_list { teacherAttendanceData : option (list att_row); loading : bool }.

Definition list_initial : list_state := mk_list None false.

(** [fetchTeacherData], run on mount, on every change of [selectedYear]
    and after a successful update or delete. *)
Definition fetchTeacherData_start (st : list_state) : list_state :=
  mk_list (teacherAttendanceData st) true.

Definition fetchTeacherData_done (o : outcome (option (list att_row))) (st : list_state)
  : list_state :=
  match o with
  | Resolved d => mk_list d false
  | Rejected _ => mk_list (teacherAttendanceData st) false
  end.

Record att_row_view := mk_att_row_view {
  cell_name : string; cell_mobile : string; cell_date : date_cell; delete_id : Z
}.

Definition att_row_of (r : att_row) : att_row_view :=
  mk_att_row_view (teacher_name r) (teacher_mobile r) (date_cell_of (row_date r)) (row_id r).

(** [!teacherAttendanceData ? <LoaderComponent /> : <MantineReactTable />];
    [loading] is not read. *)
Inductive list_view := ListLoader | ListTable (rows : list att_row_view).

Definition render_list (st : list_state) : list_view :=
  match teacherAttendanceData st with
  | None => ListLoader
  | Some rows => ListTable (map att_row_of rows)
  end.

(** *** Invariants *)

(** A property of states kept by every event holds after every run. *)
Lemma att_run_invariant (P : att_state -> Prop) st evs :
  (forall s ev, P s -> P (att_step s ev)) -> P st -> P (att_run st evs).
Proof.
  intros Hstep. unfold att_run. revert st.
  induction evs as [|ev evs IH]; intros st Hst; simpl; auto.
Qed.

(** C30: Nothing sets [openDialog] to [true]: the update dialog, its date input
    and [handleSubmit] can never be used. *)
Theorem update_dialog_never_opens evs : openDialog (att_run initial evs) = false.
Proof.
  apply (att_run_invariant (fun s => openDialog s = false)); [|done].
  intros s [i| | |d|i o| | |[] [r|m]] Hs; simpl; rewrite ?Hs; simpl; try done;
    repeat case_test; repeat case_match; simpl; try done.
Qed.

(** C29: A rejected update or delete leaves the button disabled with nothing
    in flight; from there no event enables it again, so the delete dialog
    shows "Deleting..." and cannot delete any more. *)
Theorem button_stuck st evs :
  isButtonDisabled st = true -> in_flight st = 0 ->
  isButtonDisabled (att_run st evs) = true /\ in_flight (att_run st evs) = 0.
Proof.
  intros Hd Hf. apply (att_run_invariant (fun s => isButtonDisabled s = true /\ in_flight s = 0));
    [|done].
  intros s ev [Hd' Hf']. destruct ev; simpl; rewrite ?Hd', ?Hf'; simpl;
    rewrite ?andb_false_r; try done; repeat case_match; try done; by case_test.
Qed.

(** The page never reports a failed list request: the loader stays on
    screen after it, and after a body without [teacherAttendance], until
    a later fetch delivers a list. *)
Lemma failed_fetch_keeps_loader o :
  (forall rows, o <> Resolved (Some rows)) ->
  render_list (fetchTeacherData_done o (fetchTeacherData_start list_initial)) = ListLoader.
Proof. intros Ho. destruct o as [[rows|]|]; simpl; [by destruct (Ho rows)|done|done]. Qed.

End Attendance.

(** ** Witnesses *)

Definition holiday_rows : list Holiday.holiday_row :=
  [Holiday.mk_holiday 1 "2024-08-15" "Independence Day"; Holiday.mk_holiday 2 "2024-10-02" "Gandhi Jayanti"].

Definition holiday_confirming (i : Z) : Holiday.holiday_state :=
  Holiday.onDeleteClick i (Holiday.fetchHolidayData_done (Resolved (Some holiday_rows)) Holiday.initial).

Lemma confirmDelete_success_witness :
  exists rows', Holiday.confirmDelete (Resolved tt) (holiday_confirming 1) =
    Ok (Holiday.mk_holiday_state (Some rows') (Holiday.loading (holiday_confirming 1)) false None) /\
    sublist rows' holiday_rows /\
    (forall r, r ∈ rows' <-> r ∈ holiday_rows /\ Holiday.id r <> 1%Z).
Proof. apply (Holiday.confirmDelete_success (holiday_confirming 1) 1 holiday_rows); [reflexivity|discriminate|reflexivity]. Defined.

Lemma confirmDelete_failure_witness :
  Holiday.deleteDialogOpen (match Holiday.confirmDelete (Rejected "Network Error") (holiday_confirming 2)
                            with Ok s => s | Throw _ => Holiday.initial end) = false.
Proof. rewrite (Holiday.confirmDelete_failure _ 2); [reflexivity|reflexivity|discriminate]. Defined.

Lemma confirmDelete_zero_id_witness :
  Holiday.confirmDelete (Resolved tt) (holiday_confirming 0) = Ok (holiday_confirming 0).
Proof. apply Holiday.confirmDelete_zero_id. reflexivity. Defined.

(** A delete request that rejects leaves the button disabled for good. *)
Definition att_stuck_run : list Attendance.att_event :=
  [Attendance.AOpenDelete 5; Attendance.ADeleteConfirm;
   Attendance.ASettle Attendance.Delete (Rejected "Network Error")].

Lemma button_stuck_witness :
  Attendance.isButtonDisabled
    (Attendance.att_run (Attendance.att_run Attendance.initial att_stuck_run)
       [Attendance.AOpenDelete 6; Attendance.ADeleteConfirm]) = true.
Proof.
  apply (Attendance.button_stuck (Attendance.att_run Attendance.initial att_stuck_run));
    reflexivity.
Defined.
