(* ===== verification/ReportPages.v ===== *)
(** * Handler bodies run statement by statement: report pages

    The download handlers of
    src/src/pages/report/pendingFees.jsx/PendingFeesReportView.jsx
    ([handlePendingFees], lines 53-77) and
    src/src/pages/report/TeacherReport.jsx ([handleTeacher], 78-114), and
    the status button of src/src/pages/student/StudentList.jsx (line 79),
    as lists of statements run by [exec]: each statement emits an effect
    (a file download, a toast, a call of a state setter), a call of a name
    the component does not declare throws a [ReferenceError], and an
    awaited request that rejects throws its [Rejection].  [try_catch] runs
    the handler's [catch] block after the statements that did run.
    Each Module also holds its page's state as a Record, the fetch
    handlers of its mount effect, and the rendered table or form, where
    a list that became [undefined] makes the render throw. *)

From S2P Require Import Prelude SubjectPage.

Inductive effect :=
| Download (file : string)        (* link.setAttribute("download", file); link.click() *)
| Notify (t : toast)              (* toast.success / toast.error *)
| SetState (setter : string).     (* a call of a [useState] setter *)

Inductive stmt :=
| SAwait (o : outcome unit)       (* await a request *)
| SDownload (file : string)
| SToast (t : toast)
| SCall (f : string).             (* call an identifier of the component's scope *)

(** Run statements in a scope of declared identifiers: the effects that
    happened, and the exception that stopped the run, if any. *)
Fixpoint exec (scope : list string) (body : list stmt) : list effect * option js_error :=
  match body with
  | [] => ([], None)
  | SAwait (Rejected m) :: _ => ([], Some (Rejection m))
  | SAwait (Resolved _) :: rest => exec scope rest
  | SDownload f :: rest => let '(es, e) := exec scope rest in (Download f :: es, e)
  | SToast t :: rest => let '(es, e) := exec scope rest in (Notify t :: es, e)
  | SCall f :: rest =>
      if decide (f ∈ scope) then let '(es, e) := exec scope rest in (SetState f :: es, e)
      else ([], Some (ReferenceError (f +:+ " is not defined")))
  end.

(** [try { body } catch (error) { handler }]. *)
Definition try_catch (scope : list string) (body : list stmt) (handler : list stmt)
  : list effect * option js_error :=
  let '(es, e) := exec scope body in
  match e with
  | None => (es, None)
  | Some _ => let '(hs, e') := exec scope handler in (es ++ hs, e')
  end.

(** ** The pending fees report (PendingFeesReportView.jsx) *)

Module PendingFees.

(** The identifiers declared in [PendingFeesReportView] (lines 29-77)
    and the module's imports it calls. *)
Definition scope : list string :=
  ["location"; "data"; "navigate"; "studentfess"; "setStudentFess"; "loading";
   "setLoading"; "handlePendingFees"; "toast"; "ViewPendingFeesReport";
   "DownloadStudentPending"].

(** [handlePendingFees] (lines 53-77) for the outcome of the download. *)
Definition handlePendingFees (download : outcome unit) : list effect * option js_error :=
  try_catch scope
    [SAwait download; SDownload "pending_details.csv";
     SToast (ToastSuccess "Pending Details Downloaded Successfully");
     SCall "setPendingReport"]
    [SToast (ToastError "Pending Details is Not Downloaded")].



(** *** The page state and the table (lines 29-51, 79-146) *)

(** A row of [response.student]; the two amounts may be [null]. *)
Record fee_row := mk_fee_row {
  student_admission_no : string; student_name : string; studentClass_class : string;
  total_amount : option Z; paid_amount : option Z;
  van_required : string; van_amount : string
}.

(** What [ViewPendingFeesReport] resolves to: [{status, student}]. *)
Record fees_response := mk_fees_response { fees_status : Z; student : option (list fee_row) }.

Record pf_state := mk_pf { studentfess : option (list fee_row); loading : bool }.

Definition initial : pf_state := mk_pf (Some []) true.

(** [fetchStudentFees] after its [await]: the rows only on status 200,
    a toast on rejection, and [finally] clears [loading]. *)
Definition fetchStudentFees_done (o : outcome fees_response) (st : pf_state)
  : pf_state * list toast :=
  match o with
  | Resolved response =>
      (mk_pf (if Z.eqb (fees_status response) 200 then student response else studentfess st) false,
       [])
  | Rejected _ => (mk_pf (studentfess st) false, [ToastError "Error fetching pending fees data"])
  end.

(** A table row; [toLocaleString] is called on both amounts. *)
Record fee_row_view := mk_fee_row_view {
  cell_admission_no : string; cell_name : string; cell_class : string;
  cell_total : Z; cell_paid : Z; cell_van_required : string; cell_van_amount : string
}.

Definition row_view (s : fee_row) : js_result fee_row_view :=
  match total_amount s, paid_amount s with
  | Some total, Some paid =>
      Ok (mk_fee_row_view (student_admission_no s) (student_name s) (studentClass_class s)
            total paid (van_required s) (van_amount s))
  | _, _ => Throw (TypeError "Cannot read properties of null (reading 'toLocaleString')")
  end.

Inductive pf_view :=
| PfLoader                            (* [<LoaderComponent />] *)
| PfTable (rows : list fee_row_view)
| PfNoData.                           (* "No pending fees data available" *)

Definition render (st : pf_state) : js_result pf_view :=
  if loading st then Ok PfLoader
  else match studentfess st with
       | None => Throw (TypeError "Cannot read properties of undefined (reading 'length')")
       | Some [] => Ok PfNoData
       | Some rows => js_bind (js_map row_view rows) (fun vs => Ok (PfTable vs))
       end.

(** A response with a status other than 200 is indistinguishable from an
    empty report: no toast, and the page says there is no data. *)
Lemma fetch_refused_no_data response :
  fees_status response <> 200%Z ->
  fetchStudentFees_done (Resolved response) initial = (mk_pf (Some []) false, []) /\
  render (mk_pf (Some []) false) = Ok PfNoData.
Proof. intros Hs. unfold fetchStudentFees_done. apply Z.eqb_neq in Hs. by rewrite Hs. Qed.

(** C36: Once loaded, a non-empty report renders as a table, with one row
    per fetched student in order, exactly when every row has both
    amounts; a single [null] amount makes the whole page throw at
    [toLocaleString]. *)
Theorem render_table_iff rows :
  rows <> [] ->
  (exists vs, render (mk_pf (Some rows) false) = Ok (PfTable vs) /\ length vs = length rows) <->
  Forall (fun s => is_Some (total_amount s) /\ is_Some (paid_amount s)) rows.
Proof.
  intros Hne. unfold render. simpl. destruct rows as [|r rs]; [done|]. split.
  - intros (vs & Hv & _). apply Forall_forall. intros s Hs.
    destruct (total_amount s) eqn:Ht; [destruct (paid_amount s) eqn:Hp; [by split; eexists|]|];
      exfalso; destruct (js_map_throws row_view (r :: rs) s) as [e He];
      [done|unfold row_view; rewrite ?Ht, ?Hp; by eexists|by rewrite He in Hv
      |done|unfold row_view; rewrite ?Ht; by eexists|by rewrite He in Hv].
  - intros Hall. destruct (js_map_total row_view (r :: rs)) as [vs [-> Hlen]]; [|by eexists].
    intros s Hs. rewrite Forall_forall in Hall. destruct (Hall s Hs) as [[x Ht] [y Hp]].
    unfold row_view. rewrite Ht, Hp. by eexists.
Qed.

(** Witness: one row with both amounts. *)
Definition paid_row : fee_row :=
  mk_fee_row "A-101" "Asha" "I" (Some 5000%Z) (Some 2000%Z) "Yes" "500".

Lemma render_table_iff_witness :
  exists vs, render (mk_pf (Some [paid_row]) false) = Ok (PfTable vs) /\ length vs = 1.
Proof.
  apply (render_table_iff [paid_row]); [discriminate|].
  constructor; [split; by eexists|constructor].
Defined.

End PendingFees.

(** ** The teacher report (TeacherReport.jsx) *)

Module TeacherReport.

Definition scope : list string :=
  ["yearData"; "setYearData"; "teacherdesignation"; "setTeacherDesignation"; "report";
   "setReport"; "onInputChange"; "handleTeacher"; "toast"; "axios"].

(** [handleTeacher] (lines 78-114): the [.then] and [.catch] callbacks. *)
Definition handleTeacher (o : outcome unit) : list effect * option js_error :=
  try_catch scope
    [SAwait o; SDownload "teacher_details.csv";
     SToast (ToastSuccess "Teacher Details Downloaded Successfully"); SCall "setReport"]
    [SToast (ToastError "Teacher Details is Not Downloaded")].


(** *** The page state and the form (lines 23-76, 125-206) *)

(** The form [report]: the three select values. *)
Record report_form := mk_report {
  teacher_year : string; teacher_status : string; teacher_designation : string
}.

Definition empty_report : report_form := mk_report "" "" "".

(** [yearData] holds the [year_list]s and [teacherdesignation] the
    [user_position]s; either may become [undefined]. *)
Record tr_state := mk_tr {
  yearData : option (list string);
  teacherdesignation : option (list string);
  report : report_form
}.

Definition initial : tr_state := mk_tr (Some []) (Some []) empty_report.

(** [onInputChange] (33-38) for the three named selects. *)
Definition onInputChange (name value : string) (st : tr_state) : tr_state :=
  let r := report st in
  let r' := if String.eqb name "teacher_year"
            then mk_report value (teacher_status r) (teacher_designation r)
            else if String.eqb name "teacher_status"
            then mk_report (teacher_year r) value (teacher_designation r)
            else if String.eqb name "teacher_designation"
            then mk_report (teacher_year r) (teacher_status r) value
            else r in
  mk_tr (yearData st) (teacherdesignation st) r'.

(** [fetchYearData] after its [await]: [response.data?.year]. *)
Definition fetchYearData_done (o : outcome (option (list string))) (st : tr_state) : tr_state :=
  match o with
  | Resolved y => mk_tr y (teacherdesignation st) (report st)
  | Rejected _ => st
  end.

(** [fetchTeacherData] after its [await]: [response.data.userType]; a
    body without [data] ([None]) throws inside the [try] and is logged. *)
Definition fetchTeacherData_done (o : outcome (option (option (list string)))) (st : tr_state)
  : tr_state :=
  match o with
  | Resolved (Some u) => mk_tr (yearData st) u (report st)
  | Resolved None | Rejected _ => st
  end.

(** The POST body of [handleTeacher] (80-84). *)
Definition request_body (st : tr_state) : report_form :=
  mk_report (teacher_year (report st)) (teacher_status (report st))
    (teacher_designation (report st)).

(** The state after the POST settles: the [.then] resets the form, the
    [.catch] keeps it.  The effects are those of [handleTeacher]. *)
Definition handleTeacher_done (o : outcome unit) (st : tr_state) : tr_state * list effect :=
  match o with
  | Resolved _ => (mk_tr (yearData st) (teacherdesignation st) empty_report, (handleTeacher o).1)
  | Rejected _ => (st, (handleTeacher o).1)
  end.

(** The three selects; [yearData.map] and [teacherdesignation.map] throw
    on [undefined]. *)
Record tr_view := mk_tr_view {
  year_options : list string; status_options : list string; designation_options : list string;
  selected : report_form
}.

Definition render (st : tr_state) : js_result tr_view :=
  match yearData st, teacherdesignation st with
  | Some ys, Some ds => Ok (mk_tr_view ys ["Active"; "Inactive"] ds (report st))
  | _, _ => Throw (TypeError "Cannot read properties of undefined (reading 'map')")
  end.

(** The form is reset exactly when the effects include the [setReport]
    call, that is, when the download succeeded. *)
Lemma handleTeacher_done_reset o st :
  report (handleTeacher_done o st).1 = empty_report <->
  SetState "setReport" ∈ (handleTeacher_done o st).2 \/ report st = empty_report.
Proof.
  destruct o; simpl; split.
  - intros _. left. set_solver.
  - done.
  - by right.
  - intros [Hin|?]; [|done]. exfalso. revert Hin. rewrite list_elem_of_singleton. discriminate.
Qed.

End TeacherReport.

(** ** The student list's status button (StudentList.jsx) *)

Module StudentList.

(** The identifiers declared in [StudentList] (lines 8-129). *)
Definition scope : list string :=
  ["studentData"; "setStudentData"; "loading"; "setLoading"; "navigate";
   "fetchStudentData"; "columns"; "table"].

(** [onClick={() => toggleStatus(id, student_status)}] (line 79). *)
Definition onStatusClick : list effect * option js_error := exec scope [SCall "toggleStatus"].


(** *** The page state and the table (lines 8-36, 117-129) *)

(** A row of [response.data.student]: the columns' accessor keys. *)
Record student_row := mk_student_row {
  student_id : Z; student_admission_no : string; student_admission_date : string;
  student_name : string; student_gender : string; student_dob : string;
  student_father_mobile : string; student_status : string
}.

Record sl_state := mk_sl { studentData : option (list student_row); loading : bool }.

Definition initial : sl_state := mk_sl None false.

Definition fetchStudentData_start (st : sl_state) : sl_state := mk_sl (studentData st) true.

(** After the GET: [response.data?.student]; the catch logs; [finally]
    clears [loading]. *)
Definition fetchStudentData_done (o : outcome (option (list student_row))) (st : sl_state)
  : sl_state :=
  match o with
  | Resolved d => mk_sl d false
  | Rejected _ => mk_sl (studentData st) false
  end.

(** A table row: the six text columns, the status button (label and
    whether it is green) and the id of the edit link. *)
Record student_row_view := mk_student_row_view {
  row_cells : list string; status_label : string; status_green : bool; edit_id : Z
}.

Definition student_row_of (s : student_row) : student_row_view :=
  mk_student_row_view
    [student_admission_no s; student_admission_date s; student_name s; student_gender s;
     student_dob s; student_father_mobile s]
    (student_status s) (String.eqb (student_status s) "Active") (student_id s).

(** [data: studentData || []]. *)
Definition table_rows (st : sl_state) : list student_row_view :=
  map student_row_of (default [] (studentData st)).

(** Unlike the other pages, a body without [student] or a failed request
    leaves an empty table, never an exception. *)
Lemma table_rows_after_fetch o :
  table_rows (fetchStudentData_done o (fetchStudentData_start initial)) =
  match o with Resolved (Some rows) => map student_row_of rows | _ => [] end.
Proof. by destruct o as [[rows|]|]. Qed.

End StudentList.
