(* ===== verification/OldSubjectPage.v ===== *)
(** * The earlier subject dashboard (src/test4.jsx)

    test4.jsx holds an older [SubjectList] component: the same memoised
    derivations as SubjectList.jsx (modelled once, in SubjectCatalog.v),
    but its own state, its own handlers written as [axios] promise chains,
    a statistics panel with progress bars, and a create dialog whose class
    [<select>] is filled by a [fetchClasses] that nothing calls.  Module
    [OldSubjectList] holds the state (lines 27-41) as a Record, each
    handler as a function of the state and of the settled request, the
    user's events as a step function, and the rendered statistics panel. *)

From S2P Require Import Prelude JsString JsObject ArraySort SubjectCatalog SubjectPage.

Module OldSubjectList.

(** ** State (test4.jsx 27-41) *)

(** [classes] is [undefined] after [setClasses(response.data?.classes)]
    on a body without [classes]; [Some []] is the initial [[]].  The
    [buttonRef] and the focus timers change no state. *)
Record old_state := mk_old {
  subjectData : option (list subject_row);
  loading : bool;
  openDialog : bool;
  classes : option (list string);
  isButtonDisabled : bool;
  searchTerm : string;
  filterActive : option bool;
  selectedClass : string;
  showStats : bool;
  form : subject_form
}.

Definition initial : old_state :=
  mk_old None false false (Some []) false "" None "all" true empty_form.

Definition set_subjectData d st := mk_old d (loading st) (openDialog st) (classes st)
  (isButtonDisabled st) (searchTerm st) (filterActive st) (selectedClass st) (showStats st) (form st).
Definition set_loading b st := mk_old (subjectData st) b (openDialog st) (classes st)
  (isButtonDisabled st) (searchTerm st) (filterActive st) (selectedClass st) (showStats st) (form st).
Definition set_openDialog b st := mk_old (subjectData st) (loading st) b (classes st)
  (isButtonDisabled st) (searchTerm st) (filterActive st) (selectedClass st) (showStats st) (form st).
Definition set_classes c st := mk_old (subjectData st) (loading st) (openDialog st) c
  (isButtonDisabled st) (searchTerm st) (filterActive st) (selectedClass st) (showStats st) (form st).
Definition set_isButtonDisabled b st := mk_old (subjectData st) (loading st) (openDialog st)
  (classes st) b (searchTerm st) (filterActive st) (selectedClass st) (showStats st) (form st).
Definition set_searchTerm t st := mk_old (subjectData st) (loading st) (openDialog st)
  (classes st) (isButtonDisabled st) t (filterActive st) (selectedClass st) (showStats st) (form st).
Definition set_filterActive f st := mk_old (subjectData st) (loading st) (openDialog st)
  (classes st) (isButtonDisabled st) (searchTerm st) f (selectedClass st) (showStats st) (form st).
Definition set_selectedClass c st := mk_old (subjectData st) (loading st) (openDialog st)
  (classes st) (isButtonDisabled st) (searchTerm st) (filterActive st) c (showStats st) (form st).
Definition set_showStats b st := mk_old (subjectData st) (loading st) (openDialog st)
  (classes st) (isButtonDisabled st) (searchTerm st) (filterActive st) (selectedClass st) b (form st).
Definition set_form f st := mk_old (subjectData st) (loading st) (openDialog st)
  (classes st) (isButtonDisabled st) (searchTerm st) (filterActive st) (selectedClass st) (showStats st) f.

(** ** Loading (test4.jsx 43-82) *)

(** [fetchSubjectData] up to its [await]; the mount effect calls it. *)
Definition fetchSubjectData_start (st : old_state) : old_state := set_loading true st.

(** After the GET settles: [response.data?.subject] on success; the catch
    only logs; [finally] clears [loading]. *)
Definition fetchSubjectData_done (o : outcome (option (list subject_row))) (st : old_state)
  : old_state :=
  match o with
  | Resolved d => set_loading false (set_subjectData d st)
  | Rejected _ => set_loading false st
  end.

(** [fetchClasses] (63-78) is declared but called nowhere in the file. *)
Definition fetchClasses_start (st : old_state) : old_state := set_loading true st.

Definition fetchClasses_done (o : outcome (option (list string))) (st : old_state)
  : old_state :=
  match o with
  | Resolved c => set_loading false (set_classes c st)
  | Rejected _ => set_loading false st
  end.

(** [onInputChange] (84-89) for the two named controls of the form. *)
Definition onInputChange (name value : string) (st : old_state) : old_state :=
  if String.eqb name "class_subject" then set_form (mk_form value (form_subject (form st))) st
  else if String.eqb name "subject" then set_form (mk_form (form_class_subject (form st)) value) st
  else st.

(** ** [toggleStatus] (91-116) *)

(** After [await axios.put]: 200 maps the rows (the updater throws on a
    [null] list), 400 shows the message, any other code does nothing;
    a rejection shows the fixed text. *)
Definition toggleStatus_done (id0 : Z) (currentStatus : string)
    (o : outcome api_response) (st : old_state) : js_result (old_state * list toast) :=
  let newStatus := next_status currentStatus in
  match o with
  | Resolved res =>
      if Z.eqb (res_code res) 200 then
        match subjectData st with
        | Some rows => Ok (set_subjectData (Some (toggle_rows id0 newStatus rows)) st,
                           [ToastSuccess (res_msg res)])
        | None => Throw (TypeError "Cannot read properties of null (reading 'map')")
        end
      else if Z.eqb (res_code res) 400 then Ok (st, [ToastError (res_msg res)])
      else Ok (st, [])
  | Rejected _ => Ok (st, [ToastError "Failed to update status. Please try again."])
  end.

(** ** [handleSubmit] (118-158) *)

(** Up to the POST: the boolean says whether it is sent. *)
Definition handleSubmit_start (st : old_state) : old_state * list toast * bool :=
  if form_valid (form st) then (set_isButtonDisabled true st, [], true)
  else (set_isButtonDisabled false st, [ToastError "Please fill all required fields"], false).

(** The [.then] callback; there is no [.catch], so a rejected POST runs
    nothing.  On 200 the dialog closes, [fetchSubjectData] starts (the
    boolean), the form is reset and the button re-enabled; on 400 only the
    message; in every resolved case the form is reset once more. *)
Definition handleSubmit_then (o : outcome api_response) (st : old_state)
  : old_state * list toast * bool :=
  match o with
  | Resolved res =>
      if Z.eqb (res_code res) 200 then
        (set_form empty_form (set_isButtonDisabled false (set_form empty_form
           (fetchSubjectData_start (set_openDialog false st)))),
         [ToastSuccess (res_msg res)], true)
      else if Z.eqb (res_code res) 400 then
        (set_form empty_form st, [ToastError (res_msg res)], false)
      else (set_form empty_form st, [], false)
  | Rejected _ => (st, [], false)
  end.

(** ** Dialog and selectors (159-176, 290-417) *)

Definition handleOpenDialog (st : old_state) : old_state := set_openDialog true st.
Definition handleCloseDialog (st : old_state) : old_state := set_openDialog false st.
Definition onFilterClick (st : old_state) : old_state :=
  set_filterActive (cycle_filter (filterActive st)) st.
Definition onStatsToggle (st : old_state) : old_state := set_showStats (negb (showStats st)) st.

(** The values the class [<select>] (501-514) can report: the
    placeholder's [""] and one per loaded class. *)
Definition class_options (st : old_state) : list string :=
  "" :: default [] (classes st).

(** ** Events *)

(** What the user and the network can do, each settled request delivered
    at any time; a response that makes a handler throw changes no state. *)
Inductive old_event :=
| EvMount
| EvSubjectsFetched (o : outcome (option (list subject_row)))
| EvToggled (id0 : Z) (currentStatus : string) (o : outcome api_response)
| EvSubmit
| EvCreated (o : outcome api_response)
| EvOpen
| EvClose
| EvSelectClass (value : string)
| EvTypeSubject (value : string)
| EvFilter
| EvSearch (value : string)
| EvClassPill (className : string)
| EvStats.

Definition old_step (st : old_state) (ev : old_event) : old_state :=
  match ev with
  | EvMount => fetchSubjectData_start st
  | EvSubjectsFetched o => fetchSubjectData_done o st
  | EvToggled i c o =>
      match toggleStatus_done i c o st with Ok (st', _) => st' | Throw _ => st end
  | EvSubmit => (handleSubmit_start st).1.1
  | EvCreated o => (handleSubmit_then o st).1.1
  | EvOpen => handleOpenDialog st
  | EvClose => handleCloseDialog st
  | EvSelectClass v =>
      if decide (v ∈ class_options st) then onInputChange "class_subject" v st else st
  | EvTypeSubject v => onInputChange "subject" v st
  | EvFilter => onFilterClick st
  | EvSearch v => set_searchTerm v st
  | EvClassPill c => set_selectedClass c st
  | EvStats => onStatsToggle st
  end.

Definition old_run (st : old_state) (evs : list old_event) : old_state :=
  fold_left old_step evs st.

(** ** The statistics panel (326-389) *)

(** A class card of the panel: name, total, and the two counts whose
    bars are [active/total*100%] and [inactive/total*100%] wide. *)
Record stat_card := mk_stat_card {
  card_name : string; card_total : nat; card_active : nat; card_inactive : nat;
  card_selected : bool
}.

(** [selectedClass === "all" && ...] then [showStats && classStats.map(...)]:
    [None] when the panel is hidden, [Some None] when only its header shows. *)
Definition stats_panel (st : old_state) (stats : list class_stat)
  : option (option (list stat_card)) :=
  if String.eqb (selectedClass st) "all" then
    Some (if showStats st then
            Some (map (fun s => mk_stat_card (name s) (total (stat_counts s))
                                  (active (stat_counts s)) (inactive (stat_counts s))
                                  (String.eqb (selectedClass st) (name s))) stats)
          else None)
  else None.

(** ** Lemmas *)

(** The invariant of every reachable state: no class list was ever
    loaded, so the class control still holds its placeholder. *)
Definition no_classes (st : old_state) : Prop :=
  classes st = Some [] /\ form_class_subject (form st) = "".

Lemma toggleStatus_done_keeps i c o st st' ts :
  toggleStatus_done i c o st = Ok (st', ts) -> classes st' = classes st /\ form st' = form st.
Proof.
  unfold toggleStatus_done. destruct o as [res|]; [|by intros [= <- _]].
  case_match; [destruct (subjectData st); [by intros [= <- _]|done]|].
  by case_match; intros [= <- _].
Qed.

Lemma handleSubmit_then_keeps o st :
  classes (handleSubmit_then o st).1.1 = classes st /\
  (form (handleSubmit_then o st).1.1 = form st \/ form (handleSubmit_then o st).1.1 = empty_form).
Proof. unfold handleSubmit_then. destruct o; [repeat case_match|]; simpl; auto. Qed.

Lemma old_step_no_classes st ev : no_classes st -> no_classes (old_step st ev).
Proof.
  intros [Hc Hf]. destruct ev; simpl; try (by split).
  - destruct o; by split.
  - destruct (toggleStatus_done id0 currentStatus o st) as [[st' ?]|] eqn:E; [|by split].
    apply toggleStatus_done_keeps in E as [Ha Hb]. red. rewrite Ha, Hb. by split.
  - unfold handleSubmit_start. by case_match.
  - red. destruct (handleSubmit_then_keeps o st) as [-> [-> | ->]]; by split.
  - case_decide as Hv; [|by split]. unfold class_options in Hv. rewrite Hc in Hv.
    apply list_elem_of_singleton in Hv as ->. by split.
Qed.

Lemma old_run_no_classes evs : no_classes (old_run initial evs).
Proof.
  unfold old_run. generalize initial (conj (eq_refl (Some [])) (eq_refl "") : no_classes initial).
  induction evs as [|ev evs IH]; intros st Hst; simpl; [done|]. by apply IH, old_step_no_classes.
Qed.

Lemma bucket_nonempty rows k : k ∈ class_keys rows -> bucket rows k <> [].
Proof.
  intros (s & Hs & Hk)%elem_of_class_keys Hb.
  assert (In s (bucket rows k)) as Hin.
  { apply List.filter_In. split; [by apply list_elem_of_In|]. unfold in_class. by apply String.eqb_eq. }
  by rewrite Hb in Hin.
Qed.

Lemma length_filter_le {A} (f : A -> bool) (l : list A) : length (List.filter f l) <= length l.
Proof. apply sublist_length, filter_sublist. Qed.

(** ** Theorems *)

(** C12: No subject can be created from this page: whatever the user and the
    network do from the initial state, submitting the form shows "Please
    fill all required fields" and sends no request, because [fetchClasses]
    is never called and the class control keeps its empty placeholder. *)
Theorem handleSubmit_never_sends evs :
  handleSubmit_start (old_run initial evs) =
  (set_isButtonDisabled false (old_run initial evs),
   [ToastError "Please fill all required fields"], false).
Proof.
  destruct (old_run_no_classes evs) as [_ Hf]. unfold handleSubmit_start, form_valid.
  by rewrite Hf.
Qed.


(** C35: A status update answered with a code other than 200 and 400 is
    dropped silently: no state change and no notification. *)
Theorem toggleStatus_silent id0 cur res st :
  res_code res <> 200%Z -> res_code res <> 400%Z ->
  toggleStatus_done id0 cur (Resolved res) st = Ok (st, []).
Proof.
  intros H1 H2. unfold toggleStatus_done. apply Z.eqb_neq in H1, H2. by rewrite H1, H2.
Qed.

Section Panel.
Context `{Collator}.

(** C34: Every class card of the statistics panel has a positive total, so
    its bar widths [active/total] and [inactive/total] are numbers, and
    its active and inactive counts add up to the total. *)
Theorem stats_panel_bars st rows g cs cards :
  groupedSubjects (Some rows) = Ok g ->
  classStats (Some rows) g (sortedClassNames g) = Ok cs ->
  stats_panel st cs = Some (Some cards) ->
  Forall (fun c => 0 < card_total c /\ card_active c + card_inactive c = card_total c) cards.
Proof.
  intros Hg Hcs Hp. apply groupedSubjects_Ok_inv in Hg as [Hrows ->].
  rewrite classStats_spec in Hcs by done. invc Hcs.
  unfold stats_panel in Hp. case_match; [|done]. destruct (showStats st); [|done]. invc Hp.
  apply Forall_forall. intros c (s & -> & Hs)%list_elem_of_fmap.
  apply list_elem_of_fmap in Hs as (k & -> & Hk). simpl.
  destruct (sortedClassNames_sorted_perm (group_spec rows)) as [_ Hperm].
  rewrite Hperm, keys_group_spec in Hk. apply bucket_nonempty in Hk.
  pose proof (length_filter_le is_active (bucket rows k)).
  destruct (bucket rows k); [done|]. simpl in *. lia.
Qed.
End Panel.

(** ** Witnesses *)

(** A state whose form was filled in. *)
Definition filled : old_state := set_form (mk_form "I" "Math") initial.


Lemma toggleStatus_silent_witness :
  toggleStatus_done 1 "Active" (Resolved (mk_response 500 "Server Error" None)) filled = Ok (filled, []).
Proof. apply toggleStatus_silent; discriminate. Defined.

Definition loaded : old_state := set_subjectData (Some rows_two_statuses) initial.

Lemma stats_panel_bars_witness :
  Forall (fun c => 0 < card_total c /\ card_active c + card_inactive c = card_total c)
    [mk_stat_card "I" 2 1 1 false].
Proof.
  apply (stats_panel_bars loaded rows_two_statuses (group_spec rows_two_statuses)
           [mk_class_stat "I" (mk_counts 2 1 1)]); vm_compute; reflexivity.
Defined.

End OldSubjectList.
