(* ===== verification/TeacherSubEdit.v ===== *)
(** * The teacher subject assignment edit dialog

    [TeacherSubEdit] of src/src/pages/teacher/teacherList/TeacherSubEdit.jsx:
    a dialog that loads one assignment and the school's periods when it
    opens, lets the user change its weekday, period and status, and PUTs
    the whole form object back.  The form state [teachersub] is a plain
    object spread and rewritten by computed keys, so it is a [js_object]
    whose values may be [undefined] ([None]); [resetForm] replaces it by
    an object with another key.  [openEditDialog] is the parent's state,
    changed here through [setOpenEditDialog]; it is a field of the state. *)

From S2P Require Import Prelude JsObject SubjectPage.

Module TeacherSubEdit.

(** ** Data *)

(** [response.teacherSubject] of FETCH_TEACHER_SUBJECT_BY_ID, each field
    possibly missing. *)
Record teacher_subject := mk_teacher_subject {
  ts_class : option string; ts_subject : option string; ts_on : option string;
  ts_period : option string; ts_status : option string
}.

(** A form value: a string or [undefined]. *)
Definition form_obj := js_object (option string).

Record edit_state := mk_edit {
  openEditDialog : bool;
  periodList : option (list string);   (* the [school_period]s; [undefined] possible *)
  teachersub : form_obj;
  isButtonDisabled : bool
}.

(** The form's initial object (lines 35-41). *)
Definition initial_form : form_obj :=
  [("teachersub_class", Some ""); ("teachersub_subject", Some ""); ("teachersub_on", Some "");
   ("teachersub_period", Some ""); ("teachersub_status", Some "")].

Definition initial (openEditDialog : bool) : edit_state :=
  mk_edit openEditDialog (Some []) initial_form false.

Definition set_openEditDialog b st := mk_edit b (periodList st) (teachersub st) (isButtonDisabled st).
Definition set_periodList p st := mk_edit (openEditDialog st) p (teachersub st) (isButtonDisabled st).
Definition set_teachersub t st := mk_edit (openEditDialog st) (periodList st) t (isButtonDisabled st).
Definition set_isButtonDisabled b st :=
  mk_edit (openEditDialog st) (periodList st) (teachersub st) b.

(** The option lists of the three [<select>]s: the weekdays of
    components/common/data.json, the loaded periods, and [status]. *)
Definition weekday_titles : list string :=
  ["Monday"; "Tuesday"; "Wednesday"; "Thursday"; "Friday"; "Saturday"].

Definition status_labels : list string := ["Active"; "Inactive"].

(** ** Handlers (lines 43-56) *)

(** [{...teachersub, [e.target.name]: e.target.value}]. *)
Definition onInputChange (name value : string) (st : edit_state) : edit_state :=
  set_teachersub (js_set (teachersub st) name (Some value)) st.

Definition resetForm (st : edit_state) : edit_state :=
  set_teachersub [("teacher_ref", Some "")] st.

Definition handleClose (st : edit_state) : edit_state :=
  set_openEditDialog false (resetForm st).

(** [Dialog onClose] (backdrop, Escape): closes without [resetForm]. *)
Definition onDialogClose (st : edit_state) : edit_state := set_openEditDialog false st.

(** ** The load effect (lines 59-90) *)

(** [openEditDialog && selectedTeacherSubId]: [0], [null] and
    [undefined] ids are falsy. *)
Definition effect_fires (openEditDialog : bool) (selectedTeacherSubId : option Z) : bool :=
  openEditDialog && match selectedTeacherSubId with Some i => negb (Z.eqb i 0) | None => false end.

(** After [await TEACHER_SCHOOL_PERIOD]: [response?.schoolPeriod]; the catch logs. *)
Definition fetchPeriodData_done (o : outcome (option (list string))) (st : edit_state)
  : edit_state :=
  match o with Resolved p => set_periodList p st | Rejected _ => st end.

(** After [await FETCH_TEACHER_SUBJECT_BY_ID]: the updater spreads [prev]
    and writes the five fields in the order of lines 76-80.  [response]
    [undefined] short-circuits every [response?.teacherSubject.x] to
    [undefined]; a response without [teacherSubject] makes the updater
    throw, and React runs the updater outside the [try]. *)
Definition fetchTeacherSubIdData_done (o : outcome (option (option teacher_subject)))
    (st : edit_state) : js_result edit_state :=
  let write (r : option teacher_subject) :=
    let f (g : teacher_subject -> option string) := match r with Some t => g t | None => None end in
    set_teachersub
      (js_set (js_set (js_set (js_set (js_set (teachersub st)
         "teachersub_on" (f ts_on)) "teachersub_period" (f ts_period))
         "teachersub_status" (f ts_status)) "teachersub_class" (f ts_class))
         "teachersub_subject" (f ts_subject)) st in
  match o with
  | Resolved None => Ok (write None)
  | Resolved (Some (Some t)) => Ok (write (Some t))
  | Resolved (Some None) =>
      Throw (TypeError "Cannot read properties of undefined (reading 'teachersub_on')")
  | Rejected _ => Ok st
  end.

(** ** [handleSubmit] (lines 92-123) *)

(** [value={teachersub.x || ""}]. *)
Definition shown (t : form_obj) (k : string) : string :=
  match get_own t k with Some (Some v) => v | _ => "" end.

(** A required [<select>] passes [checkValidity] when its value is one of
    its options other than the empty placeholder; a controlled value that
    matches no option leaves the placeholder selected. *)
Definition select_ok (opts : list string) (v : string) : bool :=
  bool_decide (v ∈ opts) && negb (String.eqb v "").

(** [form.checkValidity()]: the two [readOnly] inputs are barred from
    constraint validation, so only the three selects count. *)
Definition form_valid (st : edit_state) : bool :=
  select_ok weekday_titles (shown (teachersub st) "teachersub_on") &&
  select_ok (default [] (periodList st)) (shown (teachersub st) "teachersub_period") &&
  select_ok status_labels (shown (teachersub st) "teachersub_status").

(** Up to [await UPDATE_TEACHER_SUBJECT_ASSIGN]: the request body
    [{...teachersub}] when it is sent. *)
Definition handleSubmit_start (st : edit_state) : edit_state * list toast * option form_obj :=
  if form_valid st then (set_isButtonDisabled true st, [], Some (teachersub st))
  else (st, [ToastError "Please fill all required fields"], None).

(** After the PUT settles; the boolean says whether [fetchStudentData]
    (the parent's refresh) is called.  [finally] re-enables the button. *)
Definition handleSubmit_done (o : outcome api_response) (st : edit_state)
  : edit_state * list toast * bool :=
  match o with
  | Resolved response =>
      if Z.eqb (res_code response) 200
      then (set_isButtonDisabled false (handleClose st), [ToastSuccess (res_msg response)], true)
      else (set_isButtonDisabled false st, [ToastError (res_msg response)], false)
  | Rejected _ =>
      (set_isButtonDisabled false st,
       [ToastError "Error creating teacher subjecrr assign record"], false)
  end.

(** ** The dialog (lines 136-274) *)

Record edit_view := mk_edit_view {
  view_class : string; view_subject : string; view_on : string; view_period : string;
  view_status : string;
  view_period_options : list string;
  view_submit_label : string; view_submit_disabled : bool
}.

(** [Dialog open={openEditDialog}] with its form as children.  JSX
    children are evaluated eagerly, so [periodList.map] (line 227) runs
    on every render, the dialog open or closed, and throws when the list
    is [undefined]. *)
Definition render (st : edit_state) : js_result (option edit_view) :=
  match periodList st with
  | Some ps =>
      let t := teachersub st in
      Ok (if openEditDialog st then
            Some (mk_edit_view (shown t "teachersub_class") (shown t "teachersub_subject")
                    (shown t "teachersub_on") (shown t "teachersub_period")
                    (shown t "teachersub_status") ps
                    (if isButtonDisabled st then "Updatting..." else "Update")
                    (isButtonDisabled st))
          else None)
  | None => Throw (TypeError "Cannot read properties of undefined (reading 'map')")
  end.

(** A run of [onInputChange] events on the dialog's controls. *)
Definition edit_run (edits : list (string * string)) (st : edit_state) : edit_state :=
  fold_left (fun s e => onInputChange e.1 e.2 s) edits st.

(** ** Lemmas *)

Lemma edit_run_keys edits st :
  Forall (fun e => e.1 ∈ keys (teachersub st)) edits ->
  keys (teachersub (edit_run edits st)) = keys (teachersub st).
Proof.
  revert st. induction edits as [|e edits IH]; intros st He; [done|].
  apply Forall_cons in He as [He1 He]. simpl. rewrite IH; simpl; rewrite keys_set_present; auto.
Qed.

Lemma edit_run_other edits st k :
  Forall (fun e => e.1 <> k) edits ->
  get_own (teachersub (edit_run edits st)) k = get_own (teachersub st) k.
Proof.
  revert st. induction edits as [|e edits IH]; intros st He; [done|].
  apply Forall_cons in He as [He1 He]. simpl. rewrite IH by done. simpl.
  by apply get_own_set_ne.
Qed.

(** The keys the load writes, in the order of lines 76-80. *)
Definition loaded_keys : list string :=
  ["teachersub_on"; "teachersub_period"; "teachersub_status"; "teachersub_class";
   "teachersub_subject"].

Lemma fetch_after_close_keys st t st1 :
  fetchTeacherSubIdData_done (Resolved (Some (Some t))) (set_openEditDialog true (handleClose st))
    = Ok st1 ->
  keys (teachersub st1) = "teacher_ref" :: loaded_keys /\
  get_own (teachersub st1) "teacher_ref" = Some (Some "").
Proof. intros [= <-]. by split. Qed.

(** ** Theorems *)

(** C31: After the dialog is closed with Back or the close icon and opened
    again, the PUT body carries a [teacher_ref: ""] property besides the
    five assignment fields: [resetForm] replaced the form object, the
    load only spreads it, and editing the three selects keeps it. *)
Theorem reopen_body_has_teacher_ref st t edits st1 st2 ts body :
  Forall (fun e => e.1 ∈ ["teachersub_on"; "teachersub_period"; "teachersub_status"]) edits ->
  fetchTeacherSubIdData_done (Resolved (Some (Some t))) (set_openEditDialog true (handleClose st))
    = Ok st1 ->
  handleSubmit_start (edit_run edits st1) = (st2, ts, Some body) ->
  keys body = "teacher_ref" :: loaded_keys /\ get_own body "teacher_ref" = Some (Some "").
Proof.
  intros He Hf Hs. destruct (fetch_after_close_keys _ _ _ Hf) as [Hk Hr].
  unfold handleSubmit_start in Hs. case_match; [|done]. invc Hs.
  assert (Forall (fun e => e.1 ∈ keys (teachersub st1)) edits) as Hin.
  { eapply Forall_impl; [exact He|]. intros [n v]; simpl. rewrite Hk. set_solver. }
  assert (Forall (fun e => e.1 <> "teacher_ref") edits) as Hne.
  { eapply Forall_impl; [exact He|]. intros [n v] He' Heq. simpl in *. subst n.
    repeat (apply elem_of_cons in He' as [He'|He']; [discriminate|]).
    by apply elem_of_nil in He'. }
  by rewrite edit_run_keys, edit_run_other.
Qed.

(** C32: When the period request answers without [schoolPeriod], the
    component can no longer render, whether the dialog is open or not:
    [periodList.map] throws. *)
Theorem render_periods_undefined st :
  render (fetchPeriodData_done (Resolved None) st) =
  Throw (TypeError "Cannot read properties of undefined (reading 'map')").
Proof. reflexivity. Qed.

(** C33: Whatever the PUT does, the button is enabled again and one toast is
    shown; the parent refreshes exactly on code 200, and then the dialog
    is closed and the form replaced by [{teacher_ref: ""}]; otherwise
    nothing else changes. *)
Theorem handleSubmit_done_spec o st :
  let '(st', ts, refresh) := handleSubmit_done o st in
  isButtonDisabled st' = false /\ length ts = 1 /\
  (refresh = true <-> exists r, o = Resolved r /\ res_code r = 200%Z) /\
  (refresh = true -> openEditDialog st' = false /\ teachersub st' = [("teacher_ref", Some "")]) /\
  (refresh = false -> st' = set_isButtonDisabled false st).
Proof.
  unfold handleSubmit_done. destruct o as [r|m].
  - destruct (Z.eqb_spec (res_code r) 200) as [Hc|Hc]; (split; [done|split; [done|split]]).
    + split; [eauto|done].
    + done.
    + split; [done|]. intros (r' & [= <-] & ?). done.
    + done.
  - split; [done|split; [done|split]]; [|done]. split; [done|]. by intros (r' & ? & _).
Qed.

(** ** Witnesses *)

Definition ts_monday : teacher_subject :=
  mk_teacher_subject (Some "I") (Some "Math") (Some "Monday") (Some "P1") (Some "Active").

Definition with_periods : edit_state := fetchPeriodData_done (Resolved (Some ["P1"])) (initial true).

Lemma reopen_body_has_teacher_ref_witness :
  exists st1 st2 ts body,
    fetchTeacherSubIdData_done (Resolved (Some (Some ts_monday)))
      (set_openEditDialog true (handleClose with_periods)) = Ok st1 /\
    handleSubmit_start (edit_run [("teachersub_status", "Inactive")] st1) = (st2, ts, Some body) /\
    keys body = "teacher_ref" :: loaded_keys /\ get_own body "teacher_ref" = Some (Some "").
Proof.
  eexists _, _, _, _. split; [reflexivity|]. split; [reflexivity|].
  eapply (reopen_body_has_teacher_ref with_periods ts_monday [("teachersub_status", "Inactive")]);
    [repeat constructor|reflexivity|reflexivity].
Defined.


End TeacherSubEdit.
